(** * Water ATM: a shallow embedding of [Water_ATM.c] and its pricing rules

    The C program keeps three global objects (the [users] array, the
    [transactions] array and the [stats] record) and mutates them from
    menu-driven procedures.  Here every procedure is a function from the
    values it reads with [scanf] (and the clock value returned by
    [time(NULL)]) and the global state to the message it prints and the
    new global state.

    - [double] is the kernel's binary64 type [float]; arithmetic and
      comparisons are the IEEE operations the C code performs, in the
      order it performs them.
    - [int] is [Z] with the 32-bit two's complement wrap-around written
      out ([int_wrap]).
    - [time_t] is [Z] (seconds).
    - an array together with its element count is a [list]. *)

From Stdlib Require Import ZArith List String Bool Lia Floats QArith.
Import ListNotations.

Set Warnings "-inexact-float,-abstract-large-number".

Local Open Scope Z_scope.

(** ** C scalar types *)

Module CInt.

Definition INT_MIN : Z := - 2 ^ 31.
Definition INT_MAX : Z := 2 ^ 31 - 1.

(** Reduction of a mathematical integer into the range of [int]. *)
Definition int_wrap (z : Z) : Z := (z + 2 ^ 31) mod 2 ^ 32 - 2 ^ 31.

Definition int_add (a b : Z) : Z := int_wrap (a + b).
Definition int_sub (a b : Z) : Z := int_wrap (a - b).

Definition in_int_range (z : Z) : Prop := INT_MIN <= z <= INT_MAX.

(** Integral part of a binary64 value, rounding toward zero; [None] for
    NaN and the infinities. *)
Definition truncate (d : float) : option Z :=
  match Prim2SF d with
  | S754_zero _ => Some 0
  | S754_finite s m e =>
      let mag := if 0 <=? e then Z.pos m * 2 ^ e
                 else Z.pos m / 2 ^ (- e) in
      Some (if s then - mag else mag)
  | S754_infinity _ | S754_nan => None
  end.

(** The cast [(int)d].  C leaves the conversion undefined when the
    truncated value is not representable; the model returns what the
    x86-64 conversion instruction produces there, [INT_MIN]. *)
Definition double_to_int (d : float) : Z :=
  match truncate d with
  | Some z => if (INT_MIN <=? z) && (z <=? INT_MAX) then z else INT_MIN
  | None => INT_MIN
  end.

End CInt.
Import CInt.

(** ** The number a [double] stands for *)



(** ** System constants *)

Definition MAX_USERS : Z := 1000.
Definition MAX_TRANSACTIONS : Z := 5000.
Definition WATER_PRICE_PER_LITER : float := 2%float.
Definition DIGITAL_FEE : float := 1%float.
Definition MIN_BULK_LITERS : float := 10%float.
Definition LOYALTY_THRESHOLD : float := 50%float.
Definition WEEKLY_PASS_COST : float := 15%float.
Definition MONTHLY_PASS_COST : float := 50%float.

(** ** Data structures *)

Record User : Type := mkUser {
  user_id : Z;
  name : string;
  phone : string;
  wallet_balance : float;
  total_spent : float;
  transaction_count : Z;
  loyalty_points : Z;
  has_weekly_pass : Z;
  has_monthly_pass : Z;
  pass_expiry : Z;
  is_student : Z
}.

Record Transaction : Type := mkTransaction {
  transaction_id : Z;
  txn_user_id : Z;
  amount : float;
  liters : float;
  payment_method : string;
  fee_charged : float;
  discount_applied : float;
  timestamp : Z
}.

Record Analytics : Type := mkAnalytics {
  total_revenue : float;
  total_fees_collected : float;
  total_discounts_given : float;
  cash_transactions : Z;
  digital_transactions : Z;
  bulk_purchases : Z;
  pass_holders : Z
}.

(** The globals.  [user_count] and the global [transaction_count] are the
    lengths of the two lists. *)
Record State : Type := mkState {
  users : list User;
  transactions : list Transaction;
  stats : Analytics
}.

Definition user_count (s : State) : Z := Z.of_nat (List.length (users s)).
Definition g_transaction_count (s : State) : Z :=
  Z.of_nat (List.length (transactions s)).

(** [Analytics stats = {0}], no user, no transaction. *)
Definition initial_state : State :=
  mkState [] [] (mkAnalytics 0%float 0%float 0%float 0 0 0 0).

(** *** Field updates *)

Definition set_wallet_balance (b : float) (u : User) : User :=
  mkUser (user_id u) (name u) (phone u) b (total_spent u)
         (transaction_count u) (loyalty_points u) (has_weekly_pass u)
         (has_monthly_pass u) (pass_expiry u) (is_student u).

Definition set_total_spent (t : float) (u : User) : User :=
  mkUser (user_id u) (name u) (phone u) (wallet_balance u) t
         (transaction_count u) (loyalty_points u) (has_weekly_pass u)
         (has_monthly_pass u) (pass_expiry u) (is_student u).

Definition set_transaction_count (n : Z) (u : User) : User :=
  mkUser (user_id u) (name u) (phone u) (wallet_balance u) (total_spent u)
         n (loyalty_points u) (has_weekly_pass u)
         (has_monthly_pass u) (pass_expiry u) (is_student u).

Definition set_loyalty_points (p : Z) (u : User) : User :=
  mkUser (user_id u) (name u) (phone u) (wallet_balance u) (total_spent u)
         (transaction_count u) p (has_weekly_pass u)
         (has_monthly_pass u) (pass_expiry u) (is_student u).

Definition set_has_weekly_pass (f : Z) (u : User) : User :=
  mkUser (user_id u) (name u) (phone u) (wallet_balance u) (total_spent u)
         (transaction_count u) (loyalty_points u) f
         (has_monthly_pass u) (pass_expiry u) (is_student u).

Definition set_has_monthly_pass (f : Z) (u : User) : User :=
  mkUser (user_id u) (name u) (phone u) (wallet_balance u) (total_spent u)
         (transaction_count u) (loyalty_points u) (has_weekly_pass u)
         f (pass_expiry u) (is_student u).

Definition set_pass_expiry (t : Z) (u : User) : User :=
  mkUser (user_id u) (name u) (phone u) (wallet_balance u) (total_spent u)
         (transaction_count u) (loyalty_points u) (has_weekly_pass u)
         (has_monthly_pass u) t (is_student u).

Definition set_users (us : list User) (s : State) : State :=
  mkState us (transactions s) (stats s).

Definition set_transactions (ts : list Transaction) (s : State) : State :=
  mkState (users s) ts (stats s).

Definition set_stats (a : Analytics) (s : State) : State :=
  mkState (users s) (transactions s) a.

(** [users[i] = u]; nothing happens when [i] is not a used slot. *)
Fixpoint store_user (i : nat) (u : User) (us : list User) : list User :=
  match us, i with
  | [], _ => []
  | _ :: rest, O => u :: rest
  | v :: rest, S j => v :: store_user j u rest
  end.

(** ** Utility functions *)

(** [find_user]: linear search over the used slots.  The result pairs the
    slot index (the pointer the C function returns) with the record stored
    there; [None] stands for [NULL]. *)
Fixpoint find_user_from (i : nat) (us : list User) (id : Z)
    : option (nat * User) :=
  match us with
  | [] => None
  | u :: rest =>
      if user_id u =? id then Some (i, u) else find_user_from (S i) rest id
  end.

Definition find_user (s : State) (id : Z) : option (nat * User) :=
  find_user_from 0 (users s) id.

(** Writing through the pointer [&users[i]]. *)
Definition write_user (i : nat) (u : User) (s : State) : State :=
  set_users (store_user i u (users s)) s.

Definition is_pass_valid (now : Z) (user : User) : bool :=
  (negb (has_weekly_pass user =? 0) || negb (has_monthly_pass user =? 0))
  && (now <? pass_expiry user).

Definition update_loyalty_points (user : User) (amt : float) : User :=
  set_loyalty_points (int_add (loyalty_points user) (double_to_int amt)) user.

Definition save_transaction (now : Z) (uid : Z) (amt lit : float)
    (method : string) (fee discount : float) (s : State) : State :=
  if MAX_TRANSACTIONS <=? g_transaction_count s then s
  else
    let txn := mkTransaction (g_transaction_count s + 1) uid amt lit method
                             fee discount now in
    set_transactions (transactions s ++ [txn]) s.

(** ** Calculation functions *)

Definition calculate_bulk_discount (lit : float) : float :=
  if (20 <=? lit)%float then 4%float
  else if (15 <=? lit)%float then 3%float
  else if (10 <=? lit)%float then 2%float
  else 0%float.

Definition calculate_loyalty_discount (user : User) : float :=
  (total_spent user * 0.05)%float.

(** [calculate_discount] returns the discount and the user as the call
    leaves it (the redemption writes through the pointer). *)
Definition calculate_discount (user : User) (lit : float) (method : string)
    : float * User :=
  let discount := 0%float in
  let discount :=
    if negb (is_student user =? 0)
    then (discount + (lit * WATER_PRICE_PER_LITER) * 0.10)%float
    else discount in
  let discount :=
    if (MIN_BULK_LITERS <=? lit)%float
    then (discount + calculate_bulk_discount lit)%float
    else discount in
  let discount :=
    if (LOYALTY_THRESHOLD <=? total_spent user)%float
    then (discount + calculate_loyalty_discount user)%float
    else discount in
  if 100 <=? loyalty_points user
  then ((discount + 5)%float,
        set_loyalty_points (int_sub (loyalty_points user) 100) user)
  else (discount, user).

(** ** The menu procedures *)

(** What a procedure reports on the terminal. *)
Record Receipt : Type := mkReceipt {
  r_base_cost : float;
  r_discount : float;
  r_fee : float;
  r_final_amount : float;
  r_payment_method : string;
  r_points_earned : Z
}.

Inductive Outcome : Type :=
  | UserLimitReached
  | Registered (id : Z)
  | UserNotFound
  | InvalidAmount
  | ToppedUp (new_balance : float)
  | InvalidQuantity
  | InvalidPaymentMethod
  | InsufficientBalance (required available : float)
  | Purchased (r : Receipt)
  | InvalidPassType
  | PassPurchased (cost : float) (days : Z) (remaining : float).

Definition register_user (nm ph : string) (student : Z) (s : State)
    : Outcome * State :=
  if MAX_USERS <=? user_count s then (UserLimitReached, s)
  else
    let new_user :=
      mkUser (user_count s + 1) nm ph 0%float 0%float 0 0 0 0 0 student in
    (Registered (user_id new_user), set_users (users s ++ [new_user]) s).

Definition top_up_wallet (uid : Z) (amt : float) (s : State)
    : Outcome * State :=
  match find_user s uid with
  | None => (UserNotFound, s)
  | Some (p, user) =>
      if (amt <=? 0)%float then (InvalidAmount, s)
      else
        let user := set_wallet_balance (wallet_balance user + amt)%float user in
        let user :=
          if (100 <=? amt)%float then
            let bonus := (amt * 0.02)%float in
            set_wallet_balance (wallet_balance user + bonus)%float user
          else user in
        (ToppedUp (wallet_balance user), write_user p user s)
  end.

Definition incr_cash_transactions (a : Analytics) : Analytics :=
  mkAnalytics (total_revenue a) (total_fees_collected a)
              (total_discounts_given a) (int_add (cash_transactions a) 1)
              (digital_transactions a) (bulk_purchases a) (pass_holders a).

Definition incr_digital_transactions (a : Analytics) : Analytics :=
  mkAnalytics (total_revenue a) (total_fees_collected a)
              (total_discounts_given a) (cash_transactions a)
              (int_add (digital_transactions a) 1) (bulk_purchases a)
              (pass_holders a).

Definition incr_bulk_purchases (a : Analytics) : Analytics :=
  mkAnalytics (total_revenue a) (total_fees_collected a)
              (total_discounts_given a) (cash_transactions a)
              (digital_transactions a) (int_add (bulk_purchases a) 1)
              (pass_holders a).

Definition incr_pass_holders (a : Analytics) : Analytics :=
  mkAnalytics (total_revenue a) (total_fees_collected a)
              (total_discounts_given a) (cash_transactions a)
              (digital_transactions a) (bulk_purchases a)
              (int_add (pass_holders a) 1).

Definition add_totals (base_cost fee discount : float) (a : Analytics)
    : Analytics :=
  mkAnalytics (total_revenue a + base_cost)%float
              (total_fees_collected a + fee)%float
              (total_discounts_given a + discount)%float
              (cash_transactions a) (digital_transactions a)
              (bulk_purchases a) (pass_holders a).

(** The part of [purchase_water] both payment branches fall through to:
    user statistics, bulk counter, ledger record, global totals, receipt.
    [s] already holds the branch's own updates. *)
Definition complete_purchase (now : Z) (uid : Z) (p : nat) (user : User)
    (lit base_cost final_amount : float) (method : string)
    (fee discount : float) (s : State) : Outcome * State :=
  let user := set_total_spent (total_spent user + base_cost)%float user in
  let user := set_transaction_count (int_add (transaction_count user) 1) user in
  let user := update_loyalty_points user base_cost in
  let s := write_user p user s in
  let s := if (MIN_BULK_LITERS <=? lit)%float
           then set_stats (incr_bulk_purchases (stats s)) s else s in
  let s := save_transaction now uid final_amount lit method fee discount s in
  let s := set_stats (add_totals base_cost fee discount (stats s)) s in
  (Purchased (mkReceipt base_cost discount fee final_amount method
                        (double_to_int base_cost)), s).

Definition purchase_water (now : Z) (uid : Z) (lit : float)
    (payment_choice : Z) (s : State) : Outcome * State :=
  match find_user s uid with
  | None => (UserNotFound, s)
  | Some (p, user) =>
      if (lit <=? 0)%float then (InvalidQuantity, s)
      else
        let base_cost := (lit * WATER_PRICE_PER_LITER)%float in
        if payment_choice =? 1 then
          let '(discount, user) := calculate_discount user lit "Cash" in
          let final_amount := (base_cost - discount)%float in
          let s := set_stats (incr_cash_transactions (stats s)) s in
          complete_purchase now uid p user lit base_cost final_amount "Cash"
                            0%float discount s
        else if payment_choice =? 2 then
          let '(fee, discount, user) :=
            if is_pass_valid now user then (0%float, 0%float, user)
            else
              let '(discount, user) :=
                calculate_discount user lit "Digital" in
              let fee :=
                if (MIN_BULK_LITERS <=? lit)%float then 0%float
                else if (DIGITAL_FEE <=? discount)%float then 0%float
                else
                  let fee := (DIGITAL_FEE - discount)%float in
                  if (fee <? 0)%float then 0%float else fee in
              (fee, discount, user) in
          let final_amount := (base_cost - discount + fee)%float in
          if (wallet_balance user <? final_amount)%float then
            (InsufficientBalance final_amount (wallet_balance user),
             write_user p user s)
          else
            let user :=
              set_wallet_balance (wallet_balance user - final_amount)%float
                                 user in
            let s := set_stats (incr_digital_transactions (stats s)) s in
            complete_purchase now uid p user lit base_cost final_amount
                              "Digital" fee discount s
        else (InvalidPaymentMethod, s)
  end.

Definition purchase_pass (now : Z) (uid : Z) (pass_type : Z) (s : State)
    : Outcome * State :=
  match find_user s uid with
  | None => (UserNotFound, s)
  | Some (p, user) =>
      let params :=
        if pass_type =? 1 then Some (WEEKLY_PASS_COST, 7)
        else if pass_type =? 2 then Some (MONTHLY_PASS_COST, 30)
        else None in
      match params with
      | None => (InvalidPassType, s)
      | Some (pass_cost, pass_days) =>
          if (wallet_balance user <? pass_cost)%float then
            (InsufficientBalance pass_cost (wallet_balance user), s)
          else
            let user :=
              set_wallet_balance (wallet_balance user - pass_cost)%float
                                 user in
            let user :=
              if pass_type =? 1 then set_has_weekly_pass 1 user
              else set_has_monthly_pass 1 user in
            let user :=
              set_pass_expiry (now + pass_days * 24 * 60 * 60) user in
            let s := write_user p user s in
            let s := set_stats (incr_pass_holders (stats s)) s in
            (PassPurchased pass_cost pass_days (wallet_balance user), s)
      end
  end.

(** The pass line of [view_user_profile]: the kind displayed and the whole
    days remaining, or [None] when it prints that there is no active pass. *)
Definition view_user_profile_pass (now : Z) (user : User)
    : option (string * Z) :=
  if is_pass_valid now user then
    let days_left := int_wrap ((pass_expiry user - now) ÷ (24 * 60 * 60)) in
    Some (if negb (has_monthly_pass user =? 0) then "Monthly"%string
          else "Weekly"%string, days_left)
  else None.

(** ** The main loop *)

(** One menu choice together with the values typed for it. *)
Inductive Request : Type :=
  | ReqRegister (nm ph : string) (student : Z)
  | ReqTopUp (uid : Z) (amt : float)
  | ReqPurchase (uid : Z) (lit : float) (payment_choice : Z)
  | ReqPass (uid : Z) (pass_type : Z).

(** A request is served at the clock value it is paired with. *)
Definition serve (now : Z) (req : Request) (s : State) : Outcome * State :=
  match req with
  | ReqRegister nm ph student => register_user nm ph student s
  | ReqTopUp uid amt => top_up_wallet uid amt s
  | ReqPurchase uid lit choice => purchase_water now uid lit choice s
  | ReqPass uid pass_type => purchase_pass now uid pass_type s
  end.

(** The session: the messages printed, oldest first, and the final state. *)
Fixpoint run (reqs : list (Z * Request)) (s : State)
    : list Outcome * State :=
  match reqs with
  | [] => ([], s)
  | (now, req) :: rest =>
      let '(o, s1) := serve now req s in
      let '(os, s2) := run rest s1 in
      (o :: os, s2)
  end.

(** ** Records left behind by the procedures *)

(** The record [complete_purchase] leaves in the user's slot. *)
Definition purchased_user (user : User) (base_cost : float) : User :=
  update_loyalty_points
    (set_transaction_count (int_add (transaction_count user) 1)
       (set_total_spent (total_spent user + base_cost)%float user))
    base_cost.

(** The record a successful [purchase_pass] leaves in the user's slot. *)
Definition pass_bought (now pass_type : Z) (u : User) : User :=
  let cost := if pass_type =? 1 then WEEKLY_PASS_COST else MONTHLY_PASS_COST in
  let days := if pass_type =? 1 then 7 else 30 in
  let u1 := set_wallet_balance (wallet_balance u - cost)%float u in
  let u2 := if pass_type =? 1 then set_has_weekly_pass 1 u1
            else set_has_monthly_pass 1 u1 in
  set_pass_expiry (now + days * 24 * 60 * 60) u2.

(** ** The fee rules as the specification words them *)

(** The larger of two values; the second one when they do not compare. *)
Definition float_max (a b : float) : float :=
  if (b <? a)%float then a else b.

(** Priority order, first matching rule wins: valid pass, bulk quantity,
    discount covering the fee, partial absorption. *)
Definition fee_by_priority (pass_valid : bool) (lit discount : float)
    : float :=
  if pass_valid then 0%float
  else if (10 <=? lit)%float then 0%float
  else if (1 <=? discount)%float then 0%float
  else float_max 0 (1 - discount)%float.

(** ** Analytics recomputed from the ledger *)

Definition ledger_revenue (ts : list Transaction) : float :=
  fold_left (fun acc t => (acc + liters t * WATER_PRICE_PER_LITER)%float)
            ts 0%float.

Definition ledger_fees (ts : list Transaction) : float :=
  fold_left (fun acc t => (acc + fee_charged t)%float) ts 0%float.

Definition ledger_discounts (ts : list Transaction) : float :=
  fold_left (fun acc t => (acc + discount_applied t)%float) ts 0%float.

(** Number of ledger records paid by [method]. *)
Definition ledger_count (method : string) (ts : list Transaction) : Z :=
  Z.of_nat
    (List.length (filter (fun t => String.eqb (payment_method t) method) ts)).

(** The running totals and the two payment counters agree with the
    ledger. *)
Definition analytics_consistent (s : State) : Prop :=
  total_revenue (stats s) = ledger_revenue (transactions s) /\
  total_fees_collected (stats s) = ledger_fees (transactions s) /\
  total_discounts_given (stats s) = ledger_discounts (transactions s) /\
  cash_transactions (stats s) = ledger_count "Cash" (transactions s) /\
  digital_transactions (stats s) = ledger_count "Digital" (transactions s).

Definition is_purchased (o : Outcome) : bool :=
  match o with
  | Purchased _ => true
  | _ => false
  end.

(** Number of completed purchases among the messages of a session. *)
Definition purchases (os : list Outcome) : Z :=
  Z.of_nat (List.length (filter is_purchased os)).

(** ** Sessions used as concrete instances *)

Module Session.

Local Open Scope string_scope.

(** One registered user who is not a student, nothing else. *)
Definition one_user : State :=
  snd (run [(0, ReqRegister "Asha" "5550100" 0)] initial_state).

Definition asha : User :=
  mkUser 1 "Asha" "5550100" 0%float 0%float 0 0 0 0 0 0.


(** The user has topped up 100 (and received the 2% bonus). *)
Definition funded : State :=
  snd (run [(0, ReqRegister "Asha" "5550100" 0);
            (10, ReqTopUp 1 100%float)] initial_state).

Definition asha_funded : User := set_wallet_balance 102%float asha.

(** Three liters paid from the wallet at time 20, and what follows. *)
Definition small_digital_receipt : Receipt :=
  mkReceipt 6%float 0%float 1%float 7%float "Digital" 6.

Definition after_small_digital : State :=
  snd (purchase_water 20 1 3%float 2 funded).

(** A weekly pass bought at time 1000, then a monthly one at time 2000. *)
Definition weekly_holder : State := snd (purchase_pass 1000 1 1 funded).

Definition both_flags : State := snd (purchase_pass 2000 1 2 weekly_holder).

(** A student who tops up 100 and buys a weekly pass at time 1000. *)
Definition student_with_pass : State :=
  snd (run [(0, ReqRegister "Ravi" "5550101" 1);
            (10, ReqTopUp 1 100%float);
            (1000, ReqPass 1 1)] initial_state).

Definition ravi : User :=
  mkUser 1 "Ravi" "5550101" 87%float 0%float 0 0 1 0 605800 1.

(** A user with an empty wallet who has bought 50 liters for cash: 100
    spent, 100 points. *)
Definition hundred_points : State :=
  snd (run [(0, ReqRegister "Asha" "5550100" 0);
            (10, ReqPurchase 1 50%float 1)] initial_state).

Definition asha_hundred : User :=
  mkUser 1 "Asha" "5550100" 0%float 100%float 1 100 0 0 0 0.

(** The requests of a user who buys 1000 liters for cash. *)
Definition big_spender_requests : list (Z * Request) :=
  [(0, ReqRegister "Asha" "5550100" 0);
   (10, ReqPurchase 1 1000%float 1)].

Definition asha_big_spender : User :=
  mkUser 1 "Asha" "5550100" 0%float 2000%float 1 2000 0 0 0 0.

(** One user buying one liter for cash 5001 times. *)
Definition many_purchases : list (Z * Request) :=
  (0, ReqRegister "Asha" "5550100" 0)
  :: repeat (10, ReqPurchase 1 1%float 1) 5001.

End Session.

(** ** Sessions and what they preserve *)

(** A state the program can be in: the result of serving some requests
    from the initial state. *)
Definition reachable (s : State) : Prop :=
  exists reqs : list (Z * Request), s = snd (run reqs initial_state).

(** The identifier a request is about: the one typed in, or, for a
    registration, the one that will be assigned. *)
Definition request_target (s : State) (req : Request) : Z :=
  match req with
  | ReqRegister _ _ _ => user_count s + 1
  | ReqTopUp uid _ => uid
  | ReqPurchase uid _ _ => uid
  | ReqPass uid _ => uid
  end.

(** The messages of the validation failures. *)
Definition is_rejection (o : Outcome) : bool :=
  match o with
  | UserLimitReached | UserNotFound | InvalidAmount | InvalidQuantity
  | InvalidPaymentMethod | InvalidPassType => true
  | _ => false
  end.

(** Slot [p] holds identifier [p + 1], and the table is not over-full. *)
Definition users_wf (s : State) : Prop :=
  (forall (p : nat) (u : User),
     nth_error (users s) p = Some u -> user_id u = Z.of_nat p + 1) /\
  user_count s <= MAX_USERS.

Module Session2.

Local Open Scope string_scope.

(** Two users, the second one a student. *)
Definition two_users_requests : list (Z * Request) :=
  [(0, ReqRegister "Asha" "5550100" 0);
   (5, ReqRegister "Ravi" "5550101" 1)].

Definition two_users : State := snd (run two_users_requests initial_state).

Definition ravi_new : User :=
  mkUser 2 "Ravi" "5550101" 0%float 0%float 0 0 0 0 0 1.

(** A user who topped up 500 (510 with the bonus), bought a monthly pass
    at time 1000 and a weekly pass at time 2000. *)
Definition rich : State :=
  snd (run [(0, ReqRegister "Asha" "5550100" 0);
            (10, ReqTopUp 1 500%float)] initial_state).

Definition asha_rich : User :=
  mkUser 1 "Asha" "5550100" 510%float 0%float 0 0 0 0 0 0.

Definition monthly_holder : State := snd (purchase_pass 1000 1 2 rich).

Definition downgraded : State := snd (purchase_pass 2000 1 1 monthly_holder).

(** Two users; the first buys 12 liters for cash, the second tops up and
    buys 3 liters from the wallet, then a weekly and a monthly pass. *)
Definition mixed_requests : list (Z * Request) :=
  [(0, ReqRegister "Asha" "5550100" 0);
   (5, ReqRegister "Ravi" "5550101" 1);
   (10, ReqPurchase 1 12%float 1);
   (20, ReqTopUp 2 200%float);
   (30, ReqPurchase 2 3%float 2);
   (40, ReqPass 2 1);
   (50, ReqPass 2 2);
   (60, ReqPurchase 7 1%float 1)].

Definition mixed : State := snd (run mixed_requests initial_state).

End Session2.

(** ** Ledger records and receipts *)

(** The record [save_transaction] writes for a purchase with receipt [r],
    when [n] records are already stored. *)
Definition recorded (now uid : Z) (lit : float) (r : Receipt) (n : Z)
    : Transaction :=
  mkTransaction (n + 1) uid (r_final_amount r) lit (r_payment_method r)
                (r_fee r) (r_discount r) now.

(** The statistics after a completed purchase of [lit] liters with receipt
    [r], from the statistics before it. *)
Definition stats_after_purchase (lit : float) (r : Receipt) (a : Analytics)
    : Analytics :=
  let a := if String.eqb (r_payment_method r) "Cash"
           then incr_cash_transactions a
           else incr_digital_transactions a in
  let a := if (MIN_BULK_LITERS <=? lit)%float
           then incr_bulk_purchases a else a in
  add_totals (r_base_cost r) (r_fee r) (r_discount r) a.

Definition is_pass_purchased (o : Outcome) : bool :=
  match o with
  | PassPurchased _ _ _ => true
  | _ => false
  end.

(** Number of passes sold during a session. *)
Definition passes_sold (os : list Outcome) : Z :=
  Z.of_nat (List.length (filter is_pass_purchased os)).

(** Number of ledger records of at least MIN_BULK_LITERS liters. *)
Definition ledger_bulk_count (ts : list Transaction) : Z :=
  Z.of_nat
    (List.length (filter (fun t => (MIN_BULK_LITERS <=? liters t)%float) ts)).

(** Number of ledger records of the user [uid]. *)
Definition ledger_count_of (uid : Z) (ts : list Transaction) : Z :=
  Z.of_nat (List.length (filter (fun t => txn_user_id t =? uid) ts)).

(** What every stored record satisfies: numbered by position, made by a
    registered user for a quantity that was not refused, paid by one of
    the two methods, and priced by the rule of that method. *)
Definition record_ok (s : State) (i : nat) (t : Transaction) : Prop :=
  transaction_id t = Z.of_nat i + 1 /\
  1 <= txn_user_id t <= user_count s /\
  (liters t <=? 0)%float = false /\
  ((payment_method t = "Cash"%string /\ fee_charged t = 0%float /\
    amount t = (liters t * WATER_PRICE_PER_LITER - discount_applied t)%float)
   \/
   (payment_method t = "Digital"%string /\
    amount t = (liters t * WATER_PRICE_PER_LITER - discount_applied t
                + fee_charged t)%float)).

Definition ledger_wf (s : State) : Prop :=
  g_transaction_count s <= MAX_TRANSACTIONS /\
  forall (i : nat) (t : Transaction),
    nth_error (transactions s) i = Some t -> record_ok s i t.

(** * Properties *)

(** ** Order facts on binary64 values

    The comparisons of the C code are the primitive [<=?] and [<?]; their
    meaning is given by [SFcompare] on the decoded value. *)

Module FloatOrder.

Lemma SFcompare_antisym (x y : spec_float) :
  SFcompare y x = option_map CompOpp (SFcompare x y).
Proof.
  destruct x as [sx | sx | | sx mx ex], y as [sy | sy | | sy my ey];
    simpl; try reflexivity;
    try (destruct sx; reflexivity); try (destruct sy; reflexivity);
    try (destruct sx, sy; reflexivity).
  destruct sx, sy; simpl; try reflexivity;
    rewrite (Z.compare_antisym ex ey);
    destruct (ex ?= ey) eqn:E; simpl; try reflexivity;
    rewrite (Pos.compare_cont_antisym mx my Eq); reflexivity.
Qed.

(** [x < y] excludes [y <= x]. *)
Lemma ltb_not_geb (x y : float) :
  (x <? y)%float = true -> (y <=? x)%float = false.
Proof.
  rewrite FloatAxioms.ltb_spec, FloatAxioms.leb_spec. unfold SFltb, SFleb.
  rewrite (SFcompare_antisym (Prim2SF x) (Prim2SF y)).
  destruct (SFcompare (Prim2SF x) (Prim2SF y)) as [[ | | ] | ];
    simpl; congruence.
Qed.

(** Two numbers (values that are not NaN) always compare: when [x] is
    not below [y], [y] is at most [x]. *)
Lemma not_ltb_geb (x y : float) :
  (x =? x)%float = true -> (y =? y)%float = true ->
  (x <? y)%float = false -> (y <=? x)%float = true.
Proof.
  rewrite !FloatAxioms.eqb_spec, FloatAxioms.ltb_spec, FloatAxioms.leb_spec. unfold SFeqb, SFltb, SFleb.
  rewrite (SFcompare_antisym (Prim2SF x) (Prim2SF y)).
  destruct (Prim2SF x) as [sx | sx | | sx mx ex] eqn:Ex,
           (Prim2SF y) as [sy | sy | | sy my ey] eqn:Ey;
    try (simpl; congruence);
    match goal with
    | |- _ -> _ -> match ?c with _ => _ end = _ -> _ =>
        destruct c as [[ | | ] | ] eqn:Ec
    end; simpl; try congruence;
    try (destruct sx; discriminate); try (destruct sy; discriminate);
    try (destruct sx, sy; discriminate).
Qed.

Lemma leb_refl (x : float) :
  (x =? x)%float = true -> (x <=? x)%float = true.
Proof.
  rewrite FloatAxioms.eqb_spec, FloatAxioms.leb_spec. unfold SFeqb, SFleb.
  destruct (SFcompare (Prim2SF x) (Prim2SF x)) as [[ | | ] | ];
    congruence.
Qed.

Lemma ltb_leb (x y : float) :
  (x <? y)%float = true -> (x <=? y)%float = true.
Proof.
  rewrite FloatAxioms.ltb_spec, FloatAxioms.leb_spec. unfold SFltb, SFleb.
  destruct (SFcompare (Prim2SF x) (Prim2SF y)) as [[ | | ] | ];
    congruence.
Qed.

(** A negative amount is never above a non-negative balance. *)
Lemma nonneg_not_ltb_neg (w f : float) :
  (0 <=? w)%float = true -> (f <? 0)%float = true ->
  (w <? f)%float = false.
Proof.
  rewrite FloatAxioms.leb_spec, !FloatAxioms.ltb_spec. unfold SFltb, SFleb.
  change (Prim2SF 0%float) with (S754_zero false).
  destruct (Prim2SF w) as [sw | sw | | sw mw ew],
           (Prim2SF f) as [sf | sf | | sf mf ef]; simpl;
    try destruct sw; try destruct sf; simpl; congruence.
Qed.

Lemma SFleb_trans (x y z : spec_float) :
  SFleb x y = true -> SFleb y z = true -> SFleb x z = true.
Proof.
  unfold SFleb.
  destruct x as [sx | sx | | sx mx ex], y as [sy | sy | | sy my ey],
           z as [sz | sz | | sz mz ez]; simpl;
    try destruct sx; try destruct sy; try destruct sz; simpl;
    try congruence.
  all: change (Pos.compare_cont Eq) with Pos.compare.
  all: destruct (Z.compare_spec ex ey), (Z.compare_spec ey ez),
         (Z.compare_spec ex ez); try lia; try congruence; subst.
  all: destruct (Pos.compare_spec mx my), (Pos.compare_spec my mz),
         (Pos.compare_spec mx mz); simpl; try lia; try congruence.
Qed.

Lemma leb_trans (x y z : float) :
  (x <=? y)%float = true -> (y <=? z)%float = true ->
  (x <=? z)%float = true.
Proof. rewrite !FloatAxioms.leb_spec. apply SFleb_trans. Qed.

(** Below a threshold means below every larger threshold. *)
Lemma not_geb_mono (a b x : float) :
  (a <=? b)%float = true -> (a <=? x)%float = false ->
  (b <=? x)%float = false.
Proof.
  intros Hab Hax. destruct (b <=? x)%float eqn:Hbx; [ | reflexivity].
  rewrite (leb_trans a b x Hab Hbx) in Hax. discriminate.
Qed.

End FloatOrder.

(** ** Machine integers *)

Lemma int_wrap_in_range (z : Z) : in_int_range z -> int_wrap z = z.
Proof.
  unfold in_int_range, INT_MIN, INT_MAX, int_wrap. intros H.
  rewrite Z.mod_small; lia.
Qed.

(** ** The user table *)

Lemma find_user_from_sound (us : list User) (k : nat) (id : Z) (p : nat)
    (u : User) :
  find_user_from k us id = Some (p, u) ->
  (k <= p)%nat /\ nth_error us (p - k) = Some u /\ user_id u = id.
Proof.
  revert k. induction us as [ | v rest IH]; intros k; simpl.
  - discriminate.
  - destruct (user_id v =? id) eqn:E.
    + intros [= <- <-]. rewrite Nat.sub_diag. apply Z.eqb_eq in E.
      repeat split; [lia | assumption].
    + intros H. destruct (IH _ H) as (Hle & Hn & Hid).
      replace (p - k)%nat with (S (p - S k)) by lia.
      repeat split; [lia | exact Hn | exact Hid].
Qed.

(** After a write through the pointer that keeps the identifier, the same
    search returns the same pointer and the record just written. *)
Lemma find_user_from_store (us : list User) (k : nat) (id : Z) (p : nat)
    (u u' : User) :
  find_user_from k us id = Some (p, u) ->
  user_id u' = user_id u ->
  find_user_from k (store_user (p - k) u' us) id = Some (p, u').
Proof.
  revert k. induction us as [ | v rest IH]; intros k; simpl.
  - discriminate.
  - destruct (user_id v =? id) eqn:E.
    + intros [= <- <-] Hid. rewrite Nat.sub_diag. simpl.
      rewrite Hid, E. reflexivity.
    + intros H Hid.
      destruct (find_user_from_sound _ _ _ _ _ H) as (Hle & _ & _).
      replace (p - k)%nat with (S (p - S k)) by lia. simpl.
      rewrite E. apply IH; assumption.
Qed.

Lemma find_user_write (s : State) (id : Z) (p : nat) (u u' : User) :
  find_user s id = Some (p, u) ->
  user_id u' = user_id u ->
  find_user (write_user p u' s) id = Some (p, u').
Proof.
  unfold find_user, write_user. simpl. intros H Hid.
  pose proof (find_user_from_store _ _ _ _ _ u' H Hid) as H'.
  rewrite Nat.sub_0_r in H'. exact H'.
Qed.

(** ** Bulk tiers *)

(** C6. The bulk discount is a step function of the quantity: 20 liters or
    more give 4.00, from 15 up to (not including) 20 give 3.00, from 10 up
    to 15 give 2.00, less than 10 gives nothing; 9.99, 10, 14.99, 15 and 20
    liters give 0, 2, 2, 3 and 4.  Inside [calculate_discount] the tier is
    guarded by [liters >= MIN_BULK_LITERS], and the guard cuts nothing off:
    for a user with no other discount the engine returns exactly the
    tier. *)
Theorem bulk_discount_step_function (lit : float) :
  ((20 <=? lit)%float = true -> calculate_bulk_discount lit = 4%float) /\
  ((15 <=? lit)%float = true -> (lit <? 20)%float = true ->
     calculate_bulk_discount lit = 3%float) /\
  ((10 <=? lit)%float = true -> (lit <? 15)%float = true ->
     calculate_bulk_discount lit = 2%float) /\
  ((lit <? 10)%float = true -> calculate_bulk_discount lit = 0%float) /\
  (calculate_bulk_discount 9.99%float = 0%float /\
   calculate_bulk_discount 10%float = 2%float /\
   calculate_bulk_discount 14.99%float = 2%float /\
   calculate_bulk_discount 15%float = 3%float /\
   calculate_bulk_discount 20%float = 4%float) /\
  (forall (u : User) (method : string),
     is_student u = 0 ->
     (LOYALTY_THRESHOLD <=? total_spent u)%float = false ->
     loyalty_points u < 100 ->
     calculate_discount u lit method
     = ((0 + calculate_bulk_discount lit)%float, u)).
Proof.
  unfold calculate_bulk_discount.
  split; [ | split; [ | split; [ | split; [ | split]]]].
  - intros ->. reflexivity.
  - intros H15 H20. rewrite (FloatOrder.ltb_not_geb _ _ H20), H15.
    reflexivity.
  - intros H10 H15. pose proof (FloatOrder.ltb_not_geb _ _ H15) as N15.
    rewrite (FloatOrder.not_geb_mono 15 20 lit eq_refl N15), N15, H10.
    reflexivity.
  - intros H10. pose proof (FloatOrder.ltb_not_geb _ _ H10) as N10.
    pose proof (FloatOrder.not_geb_mono 10 15 lit eq_refl N10) as N15.
    rewrite (FloatOrder.not_geb_mono 15 20 lit eq_refl N15), N15, N10.
    reflexivity.
  - repeat split; reflexivity.
  - intros u method Hst Hts Hlp. unfold calculate_discount.
    rewrite Hst, Hts. simpl negb. cbv iota.
    replace (100 <=? loyalty_points u) with false
      by (symmetry; apply Z.leb_gt; exact Hlp).
    unfold MIN_BULK_LITERS, calculate_bulk_discount.
    destruct (10 <=? lit)%float eqn:G10; [reflexivity | ].
    pose proof (FloatOrder.not_geb_mono 10 15 lit eq_refl G10) as N15.
    rewrite (FloatOrder.not_geb_mono 15 20 lit eq_refl N15), N15.
    reflexivity.
Qed.

Lemma bulk_discount_step_function_witness :
  (15 <=? 17)%float = true /\ (17 <? 20)%float = true /\
  calculate_bulk_discount 17%float = 3%float.
Proof.
  split; [reflexivity | split; [reflexivity | ]].
  exact (proj1 (proj2 (bulk_discount_step_function 17%float))
               eq_refl eq_refl).
Defined.

(** ** Wallet top-up *)



(** ** Shape of a completed purchase *)

Lemma find_user_ext (s1 s2 : State) (id : Z) :
  users s1 = users s2 -> find_user s1 id = find_user s2 id.
Proof. unfold find_user. intros ->. reflexivity. Qed.

Lemma save_transaction_users now uid amt lit method fee discount s :
  users (save_transaction now uid amt lit method fee discount s) = users s.
Proof.
  unfold save_transaction.
  destruct (MAX_TRANSACTIONS <=? g_transaction_count s); reflexivity.
Qed.

Lemma save_transaction_stats now uid amt lit method fee discount s :
  stats (save_transaction now uid amt lit method fee discount s) = stats s.
Proof.
  unfold save_transaction.
  destruct (MAX_TRANSACTIONS <=? g_transaction_count s); reflexivity.
Qed.

Lemma complete_purchase_users now uid p user lit base_cost final_amount
    method fee discount s :
  users (snd (complete_purchase now uid p user lit base_cost final_amount
                                method fee discount s))
  = store_user p (purchased_user user base_cost) (users s).
Proof.
  unfold complete_purchase. cbn [snd]. cbn [set_stats users].
  rewrite save_transaction_users.
  destruct (MIN_BULK_LITERS <=? lit)%float; reflexivity.
Qed.

Lemma complete_purchase_receipt now uid p user lit base_cost final_amount
    method fee discount s :
  fst (complete_purchase now uid p user lit base_cost final_amount
                         method fee discount s)
  = Purchased (mkReceipt base_cost discount fee final_amount method
                         (double_to_int base_cost)).
Proof. reflexivity. Qed.

Lemma calculate_discount_user_id u lit method :
  user_id (snd (calculate_discount u lit method)) = user_id u.
Proof.
  unfold calculate_discount.
  destruct (100 <=? loyalty_points u); reflexivity.
Qed.

(** ** Digital fee *)

Lemma float_max_upper (a b : float) :
  (a =? a)%float = true -> (b =? b)%float = true ->
  (a <=? float_max a b)%float = true /\ (b <=? float_max a b)%float = true.
Proof.
  intros Ha Hb. unfold float_max. destruct (b <? a)%float eqn:E.
  - split; [apply FloatOrder.leb_refl | apply FloatOrder.ltb_leb];
      assumption.
  - split; [apply FloatOrder.not_ltb_geb | apply FloatOrder.leb_refl];
      assumption.
Qed.

(** Closes the conjuncts left once the branch taken by [purchase_water]
    is fixed. *)
Ltac fee_rules :=
  repeat match goal with |- _ /\ _ => split end;
  first [ reflexivity
        | assumption
        | discriminate
        | left; reflexivity
        | right; reflexivity
        | intros _; reflexivity ].

(** C4. On a completed Digital purchase the fee is given by the priority
    order, first matching rule winning: a valid pass gives 0; otherwise 10
    liters or more give 0; otherwise a discount of at least 1.00 gives 0;
    otherwise the fee is max(0, 1.00 - discount).  A completed Cash
    purchase has fee 0.  The fee is never below zero, and whenever it is a
    number it is at least zero. *)
Theorem digital_fee_priority (now uid : Z) (lit : float) (choice : Z)
    (s s' : State) (p : nat) (u : User) (r : Receipt) :
  find_user s uid = Some (p, u) ->
  purchase_water now uid lit choice s = (Purchased r, s') ->
  (choice = 1 \/ choice = 2) /\
  (choice = 2 ->
     r_fee r = fee_by_priority (is_pass_valid now u) lit (r_discount r)) /\
  (choice = 1 -> r_fee r = 0%float) /\
  (r_fee r <? 0)%float = false /\
  ((r_fee r =? r_fee r)%float = true -> (0 <=? r_fee r)%float = true).
Proof.
  intros Hfind Hrun.
  assert (Hfee : (choice = 1 \/ choice = 2) /\
                 (choice = 2 ->
                    r_fee r = fee_by_priority (is_pass_valid now u) lit
                                              (r_discount r)) /\
                 (choice = 1 -> r_fee r = 0%float) /\
                 (r_fee r <? 0)%float = false).
  { revert Hrun. unfold purchase_water. rewrite Hfind.
    destruct (lit <=? 0)%float; [discriminate | ].
    destruct (choice =? 1) eqn:C1.
    - apply Z.eqb_eq in C1. subst choice.
      destruct (calculate_discount u lit "Cash") as [d u1].
      unfold complete_purchase. intros [= <- _]. cbn [r_fee r_discount].
      fee_rules.
    - destruct (choice =? 2) eqn:C2; [ | discriminate].
      apply Z.eqb_eq in C2. subst choice.
      unfold fee_by_priority, float_max, MIN_BULK_LITERS, DIGITAL_FEE.
      destruct (is_pass_valid now u).
      + destruct (wallet_balance u <? _)%float; [discriminate | ].
        unfold complete_purchase. intros [= <- _]. cbn [r_fee r_discount].
        fee_rules.
      + destruct (calculate_discount u lit "Digital") as [d u1].
        destruct (10 <=? lit)%float;
          [ | destruct (1 <=? d)%float eqn:Cover;
              [ | destruct (1 - d <? 0)%float eqn:Neg]];
          (destruct (wallet_balance u1 <? _)%float; [discriminate | ]);
          unfold complete_purchase; intros [= <- _];
          cbn [r_fee r_discount]; rewrite ?Cover, ?Neg; fee_rules. }
  destruct Hfee as (H1 & H2 & H3 & H4).
  repeat split; try assumption.
  intros Hnum. apply FloatOrder.not_ltb_geb; [exact Hnum | reflexivity | exact H4].
Qed.

Lemma digital_fee_priority_witness :
  find_user Session.funded 1 = Some (0%nat, Session.asha_funded) /\
  purchase_water 20 1 3%float 2 Session.funded
  = (Purchased Session.small_digital_receipt, Session.after_small_digital) /\
  r_fee Session.small_digital_receipt = 1%float.
Proof.
  split; [reflexivity | split; [reflexivity | ]].
  rewrite (proj1 (proj2 (digital_fee_priority 20 1 3%float 2 Session.funded
                           Session.after_small_digital 0 Session.asha_funded
                           Session.small_digital_receipt eq_refl eq_refl))
                 eq_refl).
  reflexivity.
Defined.

(** ** Loyalty points *)


Lemma complete_purchase_find (now uid uid' : Z) (p : nat) (u user : User)
    (lit base_cost final_amount : float) (method : string)
    (fee discount : float) (s s0 : State) :
  find_user s uid = Some (p, u) ->
  users s0 = users s ->
  user_id user = user_id u ->
  find_user (snd (complete_purchase now uid' p user lit base_cost
                                    final_amount method fee discount s0)) uid
  = Some (p, purchased_user user base_cost).
Proof.
  intros Hfind Hus Hid.
  rewrite (find_user_ext _ (write_user p (purchased_user user base_cost) s)).
  - apply find_user_write with (u := u); [exact Hfind | exact Hid].
  - rewrite complete_purchase_users, Hus. reflexivity.
Qed.

Lemma calculate_discount_keeps (u : User) (lit : float) (method : string) :
  let u' := snd (calculate_discount u lit method) in
  wallet_balance u' = wallet_balance u /\ total_spent u' = total_spent u /\
  transaction_count u' = transaction_count u /\
  has_weekly_pass u' = has_weekly_pass u /\
  has_monthly_pass u' = has_monthly_pass u /\
  pass_expiry u' = pass_expiry u /\ is_student u' = is_student u.
Proof.
  unfold calculate_discount.
  destruct (100 <=? loyalty_points u); repeat split.
Qed.








(** ** Passes *)

Lemma purchase_pass_inv (now uid pass_type : Z) (s s' : State) (p : nat)
    (u : User) (c : float) (d : Z) (b : float) :
  find_user s uid = Some (p, u) ->
  purchase_pass now uid pass_type s = (PassPurchased c d b, s') ->
  (pass_type = 1 \/ pass_type = 2) /\
  s' = set_stats (incr_pass_holders (stats s))
                 (write_user p (pass_bought now pass_type u) s) /\
  find_user s' uid = Some (p, pass_bought now pass_type u).
Proof.
  intros Hfind. unfold purchase_pass. rewrite Hfind.
  assert (Hkeep : find_user
                    (set_stats (incr_pass_holders (stats s))
                       (write_user p (pass_bought now pass_type u) s)) uid
                  = Some (p, pass_bought now pass_type u)).
  { rewrite (find_user_ext _ (write_user p (pass_bought now pass_type u) s))
      by reflexivity.
    apply find_user_write with (u := u); [exact Hfind | ].
    unfold pass_bought. destruct (pass_type =? 1); reflexivity. }
  revert Hkeep. unfold pass_bought.
  destruct (pass_type =? 1) eqn:T1.
  - apply Z.eqb_eq in T1.
    destruct (wallet_balance u <? WEEKLY_PASS_COST)%float; [discriminate | ].
    intros Hkeep [= _ _ _ <-]. auto.
  - destruct (pass_type =? 2) eqn:T2; [ | discriminate].
    apply Z.eqb_eq in T2.
    destruct (wallet_balance u <? MONTHLY_PASS_COST)%float; [discriminate | ].
    intros Hkeep [= _ _ _ <-]. auto.
Qed.

(** C7. Buying a pass fails with the insufficient-balance message, leaving
    the state as it was, when the wallet holds less than the price (15.00
    for a weekly, 50.00 for a monthly pass).  Otherwise the price is taken
    from the wallet, the expiry is set to the current time plus 7 or 30
    days whatever it was before, and the pass-holder counter goes up by
    one.  After a weekly pass followed at the same instant by a monthly
    one, the profile shows a monthly pass with 30 days remaining. *)
Theorem purchase_pass_contract (now uid pass_type : Z) (s : State) (p : nat)
    (u : User) :
  find_user s uid = Some (p, u) ->
  pass_type = 1 \/ pass_type = 2 ->
  let cost := if pass_type =? 1 then 15%float else 50%float in
  let days := if pass_type =? 1 then 7 else 30 in
  ((wallet_balance u <? cost)%float = true ->
     purchase_pass now uid pass_type s
     = (InsufficientBalance cost (wallet_balance u), s)) /\
  ((wallet_balance u <? cost)%float = false ->
     exists (s' : State) (u' : User),
       purchase_pass now uid pass_type s
       = (PassPurchased cost days (wallet_balance u - cost)%float, s') /\
       find_user s' uid = Some (p, u') /\
       wallet_balance u' = (wallet_balance u - cost)%float /\
       pass_expiry u' = now + days * 86400 /\
       pass_holders (stats s') = int_add (pass_holders (stats s)) 1 /\
       transactions s' = transactions s) /\
  (forall (s1 s2 : State) (c1 c2 : float) (d1 d2 : Z) (b1 b2 : float),
     purchase_pass now uid 1 s = (PassPurchased c1 d1 b1, s1) ->
     purchase_pass now uid 2 s1 = (PassPurchased c2 d2 b2, s2) ->
     exists u2 : User,
       find_user s2 uid = Some (p, u2) /\
       has_monthly_pass u2 = 1 /\
       pass_expiry u2 = now + 30 * 86400 /\
       wallet_balance u2 = (wallet_balance u - 15 - 50)%float /\
       view_user_profile_pass now u2 = Some ("Monthly"%string, 30)).
Proof.
  intros Hfind Htype cost days. split; [ | split].
  - intros Hlow. unfold purchase_pass. rewrite Hfind.
    destruct Htype as [-> | ->]; subst cost; cbn in Hlow |- *;
      unfold WEEKLY_PASS_COST, MONTHLY_PASS_COST; rewrite Hlow; reflexivity.
  - intros Hok.
    assert (Hrun : exists s',
               purchase_pass now uid pass_type s
               = (PassPurchased cost days (wallet_balance u - cost)%float, s')).
    { unfold purchase_pass. rewrite Hfind.
      destruct Htype as [-> | ->]; subst cost days; cbn in Hok |- *;
        unfold WEEKLY_PASS_COST, MONTHLY_PASS_COST; rewrite Hok;
        eexists; reflexivity. }
    destruct Hrun as [s' Hrun].
    destruct (purchase_pass_inv _ _ _ _ _ _ _ _ _ _ Hfind Hrun)
      as (_ & Hs' & Hfind').
    exists s', (pass_bought now pass_type u).
    split; [exact Hrun | split; [exact Hfind' | ]].
    subst s'. unfold pass_bought.
    destruct Htype as [-> | ->]; subst cost days; cbn; repeat split; f_equal; lia.
  - intros s1 s2 c1 c2 d1 d2 b1 b2 Hw Hm.
    destruct (purchase_pass_inv _ _ _ _ _ _ _ _ _ _ Hfind Hw)
      as (_ & _ & Hfind1).
    destruct (purchase_pass_inv _ _ _ _ _ _ _ _ _ _ Hfind1 Hm)
      as (_ & _ & Hfind2).
    exists (pass_bought now 2 (pass_bought now 1 u)).
    split; [exact Hfind2 | ].
    unfold view_user_profile_pass, is_pass_valid, pass_bought. cbn.
    repeat split.
    replace (now <? now + 2592000) with true by (symmetry; apply Z.ltb_lt; lia).
    replace (now + 2592000 - now) with 2592000 by lia. reflexivity.
Qed.

Lemma purchase_pass_contract_witness :
  find_user Session.one_user 1 = Some (0%nat, Session.asha) /\
  find_user Session.funded 1 = Some (0%nat, Session.asha_funded) /\
  (1 = 1 \/ 1 = 2) /\
  purchase_pass 1000 1 1 Session.one_user
  = (InsufficientBalance 15%float 0%float, Session.one_user) /\
  exists (s' : State) (u' : User),
    purchase_pass 1000 1 1 Session.funded
    = (PassPurchased 15%float 7 87%float, s') /\
    find_user s' 1 = Some (0%nat, u') /\
    wallet_balance u' = 87%float /\
    pass_expiry u' = 605800 /\
    pass_holders (stats s') = 1 /\
    transactions s' = [].
Proof.
  split; [reflexivity | split; [reflexivity | split; [left; reflexivity | ]]].
  split.
  - exact (proj1 (purchase_pass_contract 1000 1 1 Session.one_user 0
                    Session.asha eq_refl (or_introl eq_refl)) eq_refl).
  - exact (proj1 (proj2 (purchase_pass_contract 1000 1 1 Session.funded 0
                           Session.asha_funded eq_refl (or_introl eq_refl)))
                 eq_refl).
Defined.

(** C10. A pass purchase sets the flag of the kind bought and leaves the
    flag of the other kind as it was.  After a weekly pass and then a
    monthly pass both flags are set, and the one expiry field holds the
    expiry of the monthly pass only. *)
Theorem purchase_pass_keeps_other_flag (now uid pass_type : Z)
    (s s' : State) (p : nat) (u : User) (c : float) (d : Z) (b : float) :
  find_user s uid = Some (p, u) ->
  purchase_pass now uid pass_type s = (PassPurchased c d b, s') ->
  (exists u' : User,
     find_user s' uid = Some (p, u') /\
     (pass_type = 1 ->
        has_weekly_pass u' = 1 /\ has_monthly_pass u' = has_monthly_pass u) /\
     (pass_type = 2 ->
        has_monthly_pass u' = 1 /\ has_weekly_pass u' = has_weekly_pass u)) /\
  (pass_type = 1 ->
   forall (later : Z) (s2 : State) (c2 : float) (d2 : Z) (b2 : float),
     purchase_pass later uid 2 s' = (PassPurchased c2 d2 b2, s2) ->
     exists u2 : User,
       find_user s2 uid = Some (p, u2) /\
       has_weekly_pass u2 = 1 /\
       has_monthly_pass u2 = 1 /\
       pass_expiry u2 = later + 30 * 86400).
Proof.
  intros Hfind Hrun.
  destruct (purchase_pass_inv _ _ _ _ _ _ _ _ _ _ Hfind Hrun)
    as (Htype & _ & Hfind').
  split.
  - exists (pass_bought now pass_type u). split; [exact Hfind' | ].
    unfold pass_bought. split; intros ->; cbn; split; reflexivity.
  - intros -> later s2 c2 d2 b2 Hrun2.
    destruct (purchase_pass_inv _ _ _ _ _ _ _ _ _ _ Hfind' Hrun2)
      as (_ & _ & Hfind2).
    exists (pass_bought later 2 (pass_bought now 1 u)).
    split; [exact Hfind2 | ].
    unfold pass_bought. cbn. repeat split.
Qed.

Lemma purchase_pass_keeps_other_flag_witness :
  find_user Session.funded 1 = Some (0%nat, Session.asha_funded) /\
  purchase_pass 1000 1 1 Session.funded
  = (PassPurchased 15%float 7 87%float, Session.weekly_holder) /\
  purchase_pass 2000 1 2 Session.weekly_holder
  = (PassPurchased 50%float 30 37%float, Session.both_flags) /\
  exists u2 : User,
    find_user Session.both_flags 1 = Some (0%nat, u2) /\
    has_weekly_pass u2 = 1 /\
    has_monthly_pass u2 = 1 /\
    pass_expiry u2 = 2000 + 30 * 86400.
Proof.
  split; [reflexivity | split; [reflexivity | split; [reflexivity | ]]].
  exact (proj2 (purchase_pass_keeps_other_flag 1000 1 1 Session.funded
                  Session.weekly_holder 0 Session.asha_funded 15%float 7
                  87%float eq_refl eq_refl)
               eq_refl 2000 Session.both_flags 50%float 30 37%float eq_refl).
Defined.

(** ** Discounts of pass holders *)

(** With a valid pass the Digital branch of [purchase_water] never calls
    [calculate_discount]: the receipt shows no discount and the base cost
    is charged in full. *)
Lemma pass_holder_digital_discount_zero (now uid : Z) (lit : float)
    (s s' : State) (p : nat) (u : User) (r : Receipt) :
  find_user s uid = Some (p, u) ->
  is_pass_valid now u = true ->
  purchase_water now uid lit 2 s = (Purchased r, s') ->
  r_discount r = 0%float /\ r_fee r = 0%float /\
  r_final_amount r = (lit * WATER_PRICE_PER_LITER - 0 + 0)%float.
Proof.
  intros Hfind Hvalid. unfold purchase_water. rewrite Hfind, Hvalid.
  destruct (lit <=? 0)%float; [discriminate | ]. cbn [Z.eqb Pos.eqb].
  destruct (wallet_balance u <? _)%float; [discriminate | ].
  unfold complete_purchase. intros [= <- _]. repeat split.
Qed.

(** C1. A student holding a valid weekly pass buys 5 liters from the
    wallet: the discount engine would grant 1.00 (and grants it when the
    same purchase is paid in cash), but the Digital purchase is charged the
    full base cost of 10.00 with discount 0. *)
Theorem pass_holder_digital_purchase_loses_discount :
  find_user Session.student_with_pass 1 = Some (0%nat, Session.ravi) /\
  is_pass_valid 2000 Session.ravi = true /\
  fst (calculate_discount Session.ravi 5%float "Digital") = 1%float /\
  (exists s' : State,
     purchase_water 2000 1 5%float 2 Session.student_with_pass
     = (Purchased (mkReceipt 10%float 0%float 0%float 10%float "Digital" 10),
        s')) /\
  (exists s' : State,
     purchase_water 2000 1 5%float 1 Session.student_with_pass
     = (Purchased (mkReceipt 10%float 1%float 0%float 9%float "Cash" 10),
        s')).
Proof.
  repeat split; try reflexivity; eexists; vm_compute; reflexivity.
Qed.

(** ** Refused Digital purchases *)

(** X10. What a refusal of a purchase for insufficient balance leaves
    untouched: wallet, lifetime spending, purchase count, ledger and
    statistics.  The slot of the user holds what [calculate_discount] left
    there: the record is unchanged when the user held fewer than 100
    points or a valid pass. *)
Lemma insufficient_balance_frame (now uid : Z) (lit : float) (choice : Z)
    (s s' : State) (p : nat) (u : User) (need have : float) :
  find_user s uid = Some (p, u) ->
  purchase_water now uid lit choice s = (InsufficientBalance need have, s') ->
  transactions s' = transactions s /\ stats s' = stats s /\
  exists u' : User,
    find_user s' uid = Some (p, u') /\
    wallet_balance u' = wallet_balance u /\
    total_spent u' = total_spent u /\
    transaction_count u' = transaction_count u /\
    (loyalty_points u < 100 \/ is_pass_valid now u = true -> u' = u).
Proof.
  intros Hfind. unfold purchase_water. rewrite Hfind.
  destruct (lit <=? 0)%float; [discriminate | ].
  destruct (choice =? 1).
  { destruct (calculate_discount u lit "Cash"). discriminate. }
  destruct (choice =? 2); [ | discriminate].
  destruct (is_pass_valid now u) eqn:V.
  - destruct (wallet_balance u <? _)%float; [ | discriminate].
    intros [= _ _ <-]. repeat split. exists u.
    split; [apply find_user_write with (u := u); auto | auto].
  - pose proof (calculate_discount_user_id u lit "Digital") as Hid.
    assert (Hu : snd (calculate_discount u lit "Digital")
                 = if 100 <=? loyalty_points u
                   then set_loyalty_points (int_sub (loyalty_points u) 100) u
                   else u).
    { unfold calculate_discount.
      destruct (100 <=? loyalty_points u); reflexivity. }
    destruct (calculate_discount u lit "Digital") as [d u1].
    cbn [snd] in Hid, Hu.
    match goal with
    | |- context [(wallet_balance u1 <? ?f)%float] =>
        destruct (wallet_balance u1 <? f)%float; [ | discriminate]
    end.
    intros [= _ _ <-]. repeat split. exists u1.
    split; [apply find_user_write with (u := u); auto | ].
    subst u1. destruct (100 <=? loyalty_points u) eqn:E.
    + repeat split. intros [Hlt | Hv]; [ | discriminate].
      apply Z.leb_le in E. lia.
    + repeat split.
Qed.

(** C2. A user with an empty wallet and 100 points asks for 50 liters
    from the wallet.  The purchase is refused (86.00 required, 0.00
    available), yet the user's 100 points are gone: the state after the
    refusal is not the state before it. *)
Theorem refused_digital_purchase_consumes_points :
  find_user Session.hundred_points 1 = Some (0%nat, Session.asha_hundred) /\
  loyalty_points Session.asha_hundred = 100 /\
  exists s' : State,
    purchase_water 20 1 50%float 2 Session.hundred_points
    = (InsufficientBalance 86%float 0%float, s') /\
    find_user s' 1
    = Some (0%nat, set_loyalty_points 0 Session.asha_hundred) /\
    s' <> Session.hundred_points.
Proof.
  split; [reflexivity | split; [reflexivity | ]].
  eexists. split; [vm_compute; reflexivity | ].
  split; [reflexivity | ].
  intros Heq. apply (f_equal (fun s => find_user s 1)) in Heq.
  vm_compute in Heq. discriminate Heq.
Qed.

(** ** Negative amounts *)

(** C9. The loyalty-percentage discount is 5% of the lifetime spending,
    whatever the size of the purchase, so it is not bounded by the cost of
    the purchase.  A user who has bought 1000 liters for cash has spent
    2000.00; when this user then buys one liter from an empty wallet the
    loyalty-percentage discount alone is 100.00 on a base cost of 2.00
    with fee 0.00, more than base cost plus fee.  The final amount is
    negative (-103.00 with the point redemption), the balance check passes
    (as it does for every negative amount against a non-negative balance),
    the purchase completes, the wallet grows from 0.00 to 103.00 and the
    ledger records the amount -103.00. *)
Theorem negative_final_amount_reachable :
  (exists (reqs : list (Z * Request)) (now uid : Z) (lit : float)
          (p : nat) (u u' : User) (r : Receipt) (s' : State) (t : Transaction),
     let s := snd (run reqs initial_state) in
     find_user s uid = Some (p, u) /\
     (LOYALTY_THRESHOLD <=? total_spent u)%float = true /\
     calculate_loyalty_discount u = (total_spent u * 0.05)%float /\
     calculate_loyalty_discount u = 100%float /\
     purchase_water now uid lit 2 s = (Purchased r, s') /\
     r_base_cost r = 2%float /\
     r_fee r = 0%float /\
     r_discount r = (0 + calculate_loyalty_discount u + 5)%float /\
     (r_base_cost r + r_fee r <? calculate_loyalty_discount u)%float = true /\
     (r_base_cost r - calculate_loyalty_discount u + r_fee r <? 0)%float
     = true /\
     (r_final_amount r <? 0)%float = true /\
     find_user s' uid = Some (p, u') /\
     wallet_balance u' = (wallet_balance u - r_final_amount r)%float /\
     (wallet_balance u <? wallet_balance u')%float = true /\
     transactions s' = transactions s ++ [t] /\
     amount t = r_final_amount r /\
     (amount t <? 0)%float = true) /\
  (forall (u : User) (lit : float) (method : string),
     is_student u = 0 ->
     (lit <? 10)%float = true ->
     (LOYALTY_THRESHOLD <=? total_spent u)%float = true ->
     loyalty_points u < 100 ->
     calculate_discount u lit method
     = ((0 + calculate_loyalty_discount u)%float, u)) /\
  (forall wallet final_amount : float,
     (0 <=? wallet)%float = true -> (final_amount <? 0)%float = true ->
     (wallet <? final_amount)%float = false).
Proof.
  split; [ | split; [ | exact FloatOrder.nonneg_not_ltb_neg]].
  - exists Session.big_spender_requests, 20, 1, 1%float, 0%nat,
           Session.asha_big_spender,
           (mkUser 1 "Asha" "5550100" 103%float 2002%float 2 1902 0 0 0 0),
           (mkReceipt 2%float 105%float 0%float (-103)%float "Digital" 2),
           (snd (purchase_water 20 1 1%float 2
                   (snd (run Session.big_spender_requests initial_state)))),
           (mkTransaction 2 1 (-103)%float 1%float "Digital" 0%float
                          105%float 20).
    cbv zeta. repeat split; reflexivity.
  - intros u lit method Hst Hsmall Hts Hlp. unfold calculate_discount.
    rewrite Hst, Hts. unfold MIN_BULK_LITERS.
    rewrite (FloatOrder.ltb_not_geb _ _ Hsmall). cbn [Z.eqb negb].
    replace (100 <=? loyalty_points u) with false
      by (symmetry; apply Z.leb_gt; exact Hlp).
    reflexivity.
Qed.

(** ** Analytics and the ledger *)

Lemma ledger_count_app (method : string) (ts : list Transaction)
    (t : Transaction) :
  ledger_count method (ts ++ [t])
  = ledger_count method ts
    + (if String.eqb (payment_method t) method then 1 else 0).
Proof.
  unfold ledger_count. rewrite filter_app, length_app. cbn [filter].
  destruct (String.eqb (payment_method t) method); cbn [List.length]; lia.
Qed.

Lemma ledger_count_bound (method : string) (ts : list Transaction) :
  0 <= ledger_count method ts <= Z.of_nat (List.length ts).
Proof.
  unfold ledger_count. pose proof (filter_length_le
    (fun t => String.eqb (payment_method t) method) ts). lia.
Qed.

(** The ledger and the statistics after [complete_purchase] when there is
    room for one more record. *)
Lemma complete_purchase_ledger now uid p user lit base_cost final_amount
    method fee discount s :
  g_transaction_count s < MAX_TRANSACTIONS ->
  let s' := snd (complete_purchase now uid p user lit base_cost final_amount
                                   method fee discount s) in
  transactions s'
  = transactions s
    ++ [mkTransaction (g_transaction_count s + 1) uid final_amount lit
                      method fee discount now] /\
  total_revenue (stats s') = (total_revenue (stats s) + base_cost)%float /\
  total_fees_collected (stats s')
  = (total_fees_collected (stats s) + fee)%float /\
  total_discounts_given (stats s')
  = (total_discounts_given (stats s) + discount)%float /\
  cash_transactions (stats s') = cash_transactions (stats s) /\
  digital_transactions (stats s') = digital_transactions (stats s).
Proof.
  intros Hroom. unfold complete_purchase. cbn [snd]. cbv zeta.
  unfold save_transaction.
  assert (Hcnt : forall a u,
             g_transaction_count (set_stats a (write_user p u s))
             = g_transaction_count s) by reflexivity.
  destruct (MIN_BULK_LITERS <=? lit)%float.
  - rewrite Hcnt.
    replace (MAX_TRANSACTIONS <=? g_transaction_count s) with false
      by (symmetry; apply Z.leb_gt; exact Hroom).
    repeat split.
  - assert (Hc : forall u, g_transaction_count (write_user p u s)
                           = g_transaction_count s) by reflexivity.
    rewrite Hc.
    replace (MAX_TRANSACTIONS <=? g_transaction_count s) with false
      by (symmetry; apply Z.leb_gt; exact Hroom).
    repeat split.
Qed.

Lemma initial_state_consistent : analytics_consistent initial_state.
Proof. repeat split. Qed.

(** Appending the record of a purchase whose figures were added to the
    running totals keeps the totals in step with the ledger. *)
Lemma consistent_after_record (s s' : State) (t : Transaction) :
  analytics_consistent s ->
  g_transaction_count s < MAX_TRANSACTIONS ->
  transactions s' = transactions s ++ [t] ->
  total_revenue (stats s')
  = (total_revenue (stats s) + liters t * WATER_PRICE_PER_LITER)%float ->
  total_fees_collected (stats s')
  = (total_fees_collected (stats s) + fee_charged t)%float ->
  total_discounts_given (stats s')
  = (total_discounts_given (stats s) + discount_applied t)%float ->
  cash_transactions (stats s')
  = (if String.eqb (payment_method t) "Cash"
     then int_add (cash_transactions (stats s)) 1
     else cash_transactions (stats s)) ->
  digital_transactions (stats s')
  = (if String.eqb (payment_method t) "Digital"
     then int_add (digital_transactions (stats s)) 1
     else digital_transactions (stats s)) ->
  analytics_consistent s'.
Proof.
  intros (Hrev & Hfee & Hdis & Hcash & Hdig) Hroom Hts Hr Hf Hd Hc Hg.
  assert (Hincr : forall method,
             int_add (ledger_count method (transactions s)) 1
             = ledger_count method (transactions s) + 1).
  { intros method. unfold int_add. apply int_wrap_in_range.
    pose proof (ledger_count_bound method (transactions s)) as Hb.
    unfold g_transaction_count, MAX_TRANSACTIONS in Hroom.
    unfold in_int_range, INT_MIN, INT_MAX. lia. }
  unfold analytics_consistent. rewrite Hts, Hr, Hf, Hd, Hc, Hg.
  unfold ledger_revenue, ledger_fees, ledger_discounts.
  rewrite !fold_left_app, !ledger_count_app. cbn [fold_left].
  fold (ledger_revenue (transactions s)) (ledger_fees (transactions s))
       (ledger_discounts (transactions s)).
  rewrite <- Hrev, <- Hfee, <- Hdis, Hcash, Hdig, !Hincr.
  repeat split;
    match goal with
    | |- context [String.eqb ?a ?b] => destruct (String.eqb a b); lia
    end.
Qed.

(** Consistency only looks at the ledger and the statistics. *)
Lemma consistent_ext (s s' : State) :
  transactions s' = transactions s ->
  total_revenue (stats s') = total_revenue (stats s) ->
  total_fees_collected (stats s') = total_fees_collected (stats s) ->
  total_discounts_given (stats s') = total_discounts_given (stats s) ->
  cash_transactions (stats s') = cash_transactions (stats s) ->
  digital_transactions (stats s') = digital_transactions (stats s) ->
  analytics_consistent s -> analytics_consistent s'.
Proof.
  unfold analytics_consistent. intros -> -> -> -> -> ->. trivial.
Qed.

(** One request: a completed purchase adds one record (when there is
    room) and keeps consistency; anything else leaves the ledger alone. *)
Lemma serve_consistent (now : Z) (req : Request) (s s' : State)
    (o : Outcome) :
  serve now req s = (o, s') ->
  analytics_consistent s ->
  g_transaction_count s + (if is_purchased o then 1 else 0)
  <= MAX_TRANSACTIONS ->
  analytics_consistent s' /\
  g_transaction_count s'
  = g_transaction_count s + (if is_purchased o then 1 else 0).
Proof.
  intros Hserve Hinv Hroom.
  assert (Hidle : is_purchased o = false ->
                  transactions s' = transactions s ->
                  total_revenue (stats s') = total_revenue (stats s) ->
                  total_fees_collected (stats s')
                  = total_fees_collected (stats s) ->
                  total_discounts_given (stats s')
                  = total_discounts_given (stats s) ->
                  cash_transactions (stats s') = cash_transactions (stats s) ->
                  digital_transactions (stats s')
                  = digital_transactions (stats s) ->
                  analytics_consistent s' /\
                  g_transaction_count s'
                  = g_transaction_count s
                    + (if is_purchased o then 1 else 0)).
  { intros -> Hts. split.
    - apply (consistent_ext s s'); assumption.
    - unfold g_transaction_count. rewrite Hts. lia. }
  assert (Hdone : forall uid p user lit fee discount method s0,
             s' = snd (complete_purchase now uid p user lit
                         (lit * WATER_PRICE_PER_LITER)%float
                         (if String.eqb method "Cash"
                          then (lit * WATER_PRICE_PER_LITER - discount)%float
                          else (lit * WATER_PRICE_PER_LITER - discount + fee)%float)
                         method fee discount s0) ->
             is_purchased o = true ->
             transactions s0 = transactions s ->
             total_revenue (stats s0) = total_revenue (stats s) ->
             total_fees_collected (stats s0) = total_fees_collected (stats s) ->
             total_discounts_given (stats s0)
             = total_discounts_given (stats s) ->
             cash_transactions (stats s0)
             = (if String.eqb method "Cash"
                then int_add (cash_transactions (stats s)) 1
                else cash_transactions (stats s)) ->
             digital_transactions (stats s0)
             = (if String.eqb method "Digital"
                then int_add (digital_transactions (stats s)) 1
                else digital_transactions (stats s)) ->
             analytics_consistent s' /\
             g_transaction_count s'
             = g_transaction_count s + (if is_purchased o then 1 else 0)).
  { intros uid p user lit fee discount method s0 Hs' Hp Hts Hr Hf Hd Hc Hg.
    rewrite Hp in Hroom |- *.
    assert (Hroom0 : g_transaction_count s0 < MAX_TRANSACTIONS).
    { unfold g_transaction_count in *. rewrite Hts. lia. }
    pose proof (complete_purchase_ledger now uid p user lit
                  (lit * WATER_PRICE_PER_LITER)%float
                  (if String.eqb method "Cash"
                   then (lit * WATER_PRICE_PER_LITER - discount)%float
                   else (lit * WATER_PRICE_PER_LITER - discount + fee)%float)
                  method fee discount s0 Hroom0) as Hled.
    cbv zeta in Hled. rewrite <- Hs' in Hled.
    destruct Hled as (Lts & Lr & Lf & Ld & Lc & Lg).
    rewrite Hts in Lts. split.
    - refine (consistent_after_record s s' _ Hinv _ Lts _ _ _ _ _);
        cbn [liters fee_charged discount_applied payment_method];
        try congruence.
      unfold g_transaction_count in *. lia.
    - unfold g_transaction_count. rewrite Lts, length_app. cbn [List.length].
      lia. }
  destruct req as [nm ph student | uid amt | uid lit choice | uid pass_type];
    cbn [serve] in Hserve.
  - unfold register_user in Hserve.
    destruct (MAX_USERS <=? user_count s); injection Hserve as <- <-;
      apply Hidle; reflexivity.
  - unfold top_up_wallet in Hserve.
    destruct (find_user s uid) as [[p u] | ];
      [destruct (amt <=? 0)%float | ]; injection Hserve as <- <-;
      apply Hidle; reflexivity.
  - unfold purchase_water in Hserve.
    destruct (find_user s uid) as [[p u] | ];
      [ | injection Hserve as <- <-; apply Hidle; reflexivity].
    destruct (lit <=? 0)%float;
      [injection Hserve as <- <-; apply Hidle; reflexivity | ].
    destruct (choice =? 1).
    + destruct (calculate_discount u lit "Cash") as [d u1].
      apply (Hdone uid p u1 lit 0%float d "Cash"%string
               (set_stats (incr_cash_transactions (stats s)) s));
        try reflexivity;
        [ pose proof (f_equal snd Hserve) as E; cbn [snd] in E;
          rewrite <- E; reflexivity
        | pose proof (f_equal fst Hserve) as E; cbn [fst] in E;
          rewrite <- E; reflexivity ].
    + destruct (choice =? 2);
        [ | injection Hserve as <- <-; apply Hidle; reflexivity].
      destruct (if is_pass_valid now u then _ else _) as [[fee d] u1].
      destruct (wallet_balance u1 <? _)%float;
        [injection Hserve as <- <-; apply Hidle; reflexivity | ].
      apply (Hdone uid p
               (set_wallet_balance
                  (wallet_balance u1
                   - (lit * WATER_PRICE_PER_LITER - d + fee))%float u1)
               lit fee d "Digital"%string
               (set_stats (incr_digital_transactions (stats s)) s));
        try reflexivity;
        [ pose proof (f_equal snd Hserve) as E; cbn [snd] in E;
          rewrite <- E; reflexivity
        | pose proof (f_equal fst Hserve) as E; cbn [fst] in E;
          rewrite <- E; reflexivity ].
  - unfold purchase_pass in Hserve.
    destruct (find_user s uid) as [[p u] | ];
      [ | injection Hserve as <- <-; apply Hidle; reflexivity].
    destruct (pass_type =? 1);
      [ | destruct (pass_type =? 2);
          [ | injection Hserve as <- <-; apply Hidle; reflexivity]];
      (destruct (wallet_balance u <? _)%float;
       injection Hserve as <- <-; apply Hidle; reflexivity).
Qed.

Lemma purchases_cons (o : Outcome) (os : list Outcome) :
  purchases (o :: os) = (if is_purchased o then 1 else 0) + purchases os.
Proof.
  unfold purchases. cbn [filter].
  destruct (is_purchased o); cbn [List.length]; lia.
Qed.

Lemma purchases_nonneg (os : list Outcome) : 0 <= purchases os.
Proof. unfold purchases. lia. Qed.

(** A session that starts from a consistent state and completes no more
    purchases than the ledger has room for ends in a consistent state. *)
Lemma run_consistent (reqs : list (Z * Request)) :
  forall s : State,
    analytics_consistent s ->
    g_transaction_count s + purchases (fst (run reqs s)) <= MAX_TRANSACTIONS ->
    analytics_consistent (snd (run reqs s)).
Proof.
  induction reqs as [ | [now req] rest IH]; intros s Hinv Hroom.
  - exact Hinv.
  - cbn [run] in Hroom |- *.
    destruct (serve now req s) as [o s1] eqn:Hserve.
    destruct (run rest s1) as [os s2] eqn:Hrest.
    cbn [fst snd] in Hroom |- *. rewrite purchases_cons in Hroom.
    pose proof (purchases_nonneg os) as Hos.
    destruct (serve_consistent now req s s1 o Hserve Hinv) as (Hinv1 & Hcnt).
    { lia. }
    specialize (IH s1 Hinv1). rewrite Hrest in IH. cbn [fst snd] in IH.
    apply IH. lia.
Qed.

(** C3 (as amended). After any session started from the initial state in
    which at most MAX_TRANSACTIONS (5000) purchases complete, whatever other
    requests and refused purchases it contains, the running totals equal
    the folds over the ledger: revenue is the sum of liters x 2.00, fees
    and discounts are the sums of the recorded fees and discounts, and the
    cash and digital counters are the numbers of records paid that way. *)
Theorem analytics_match_ledger_within_capacity (reqs : list (Z * Request)) :
  purchases (fst (run reqs initial_state)) <= MAX_TRANSACTIONS ->
  analytics_consistent (snd (run reqs initial_state)).
Proof.
  intros Hroom. apply run_consistent.
  - exact initial_state_consistent.
  - exact Hroom.
Qed.

Lemma analytics_match_ledger_within_capacity_witness :
  purchases (fst (run (Session.big_spender_requests
                         ++ [(20, ReqPurchase 1 1%float 2)]) initial_state))
  <= MAX_TRANSACTIONS /\
  analytics_consistent
    (snd (run (Session.big_spender_requests
                 ++ [(20, ReqPurchase 1 1%float 2)]) initial_state)).
Proof.
  split; [vm_compute; discriminate | ].
  apply (analytics_match_ledger_within_capacity
           (Session.big_spender_requests ++ [(20, ReqPurchase 1 1%float 2)])).
  vm_compute; discriminate.
Defined.

(** C3 (as stated) fails once the ledger is full.  One user buys one liter
    for cash 5001 times; every purchase completes, the statistics count
    5001 cash purchases and a revenue of 10002.00, but [save_transaction]
    dropped the last record: the ledger holds 5000 records worth
    10000.00. *)
Lemma analytics_drift_past_capacity :
  let result := run Session.many_purchases initial_state in
  purchases (fst result) = 5001 /\
  cash_transactions (stats (snd result)) = 5001 /\
  ledger_count "Cash" (transactions (snd result)) = 5000 /\
  total_revenue (stats (snd result)) = 10002%float /\
  ledger_revenue (transactions (snd result)) = 10000%float /\
  ~ analytics_consistent (snd result).
Proof.
  intros result.
  assert (H : (purchases (fst result),
               cash_transactions (stats (snd result)),
               ledger_count "Cash" (transactions (snd result)),
               total_revenue (stats (snd result)),
               ledger_revenue (transactions (snd result)))
              = (5001, 5001, 5000, 10002%float, 10000%float))
    by (vm_compute; reflexivity).
  clearbody result. injection H as H1 H2 H3 H4 H5.
  split; [exact H1 | split; [exact H2 | split; [exact H3 | ]]].
  split; [exact H4 | split; [exact H5 | ]].
  intros (_ & _ & _ & Hcash & _). rewrite H2, H3 in Hcash. discriminate Hcash.
Qed.

(** ** Looking users up *)

Lemma find_user_from_none (us : list User) (k : nat) (id : Z) :
  find_user_from k us id = None <->
  (forall u : User, In u us -> user_id u <> id).
Proof.
  revert k. induction us as [ | v rest IH]; intros k; cbn [find_user_from].
  - split; [intros _ u [] | reflexivity].
  - destruct (user_id v =? id) eqn:E.
    + split; [discriminate | ]. intros H. apply Z.eqb_eq in E.
      exfalso. apply (H v); [left; reflexivity | exact E].
    + apply Z.eqb_neq in E. rewrite IH. split.
      * intros H u [<- | Hin]; [exact E | apply H; exact Hin].
      * intros H u Hin. apply H. right. exact Hin.
Qed.

Lemma find_user_from_first (us : list User) (k : nat) (id : Z) (p : nat)
    (u : User) :
  find_user_from k us id = Some (p, u) ->
  forall (q : nat) (v : User),
    (q < p - k)%nat -> nth_error us q = Some v -> user_id v <> id.
Proof.
  revert k. induction us as [ | w rest IH]; intros k; cbn [find_user_from].
  - discriminate.
  - destruct (user_id w =? id) eqn:E.
    + intros [= <- <-] q v Hq. lia.
    + intros H q v Hq Hn.
      destruct (find_user_from_sound _ _ _ _ _ H) as (Hle & _ & _).
      destruct q as [ | q]; cbn [nth_error] in Hn.
      * injection Hn as <-. apply Z.eqb_neq. exact E.
      * apply (IH _ H q v); [lia | exact Hn].
Qed.

(** The two answers of [find_user], read off the search. *)
Lemma find_user_cases (s : State) (id : Z) :
  match find_user s id with
  | None => forall u : User, In u (users s) -> user_id u <> id
  | Some (p, u) =>
      nth_error (users s) p = Some u /\ user_id u = id /\
      forall (q : nat) (v : User),
        (q < p)%nat -> nth_error (users s) q = Some v -> user_id v <> id
  end.
Proof.
  unfold find_user. destruct (find_user_from 0 (users s) id) as [[p u] | ] eqn:E.
  - destruct (find_user_from_sound _ _ _ _ _ E) as (_ & Hn & Hid).
    rewrite Nat.sub_0_r in Hn. repeat split; try assumption.
    intros q v Hq. apply (find_user_from_first _ _ _ _ _ E). lia.
  - exact (proj1 (find_user_from_none _ _ _) E).
Qed.

(** X1. [find_user] answers [NULL] exactly when no registered user has
    the identifier; otherwise it returns the first slot holding it. *)
Theorem find_user_spec (s : State) (id : Z) :
  match find_user s id with
  | None => forall u : User, In u (users s) -> user_id u <> id
  | Some (p, u) =>
      nth_error (users s) p = Some u /\ user_id u = id /\
      forall (q : nat) (v : User),
        (q < p)%nat -> nth_error (users s) q = Some v -> user_id v <> id
  end.
Proof.
  pose proof (find_user_cases s id) as Hcases.
  destruct (find_user s id) as [[p u] | ].
  - destruct Hcases as (Hslot & Hid & Hfirst).
    split; [exact Hslot | split; [exact Hid | exact Hfirst]].
  - intros u Hin. exact (Hcases u Hin).
Qed.

(** ** Writing through a pointer *)

Lemma store_user_length (p : nat) (u : User) (us : list User) :
  List.length (store_user p u us) = List.length us.
Proof.
  revert p. induction us as [ | v rest IH]; intros [ | p]; cbn; auto.
Qed.

Lemma store_user_other (p q : nat) (u : User) (us : list User) :
  q <> p -> nth_error (store_user p u us) q = nth_error us q.
Proof.
  revert p q. induction us as [ | v rest IH]; intros [ | p] [ | q] H;
    cbn; auto; try contradiction; try (apply IH; lia).
Qed.

Lemma store_user_same_slot (p : nat) (u v : User) (us : list User) :
  nth_error us p = Some v -> nth_error (store_user p u us) p = Some u.
Proof.
  revert p. induction us as [ | w rest IH]; intros [ | p]; cbn;
    try discriminate; auto.
Qed.

Lemma store_user_id (p : nat) (u : User) (us : list User) :
  nth_error us p = Some u -> store_user p u us = us.
Proof.
  revert p. induction us as [ | w rest IH]; intros [ | p]; cbn;
    try discriminate.
  - intros [= ->]. reflexivity.
  - intros H. rewrite (IH _ H). reflexivity.
Qed.

(** Replacing a record by one with the same identifier does not change
    what a search for another identifier returns. *)
Lemma find_user_from_store_other (us : list User) (k p : nat) (id : Z)
    (u u' : User) :
  nth_error us p = Some u -> user_id u' = user_id u -> user_id u <> id ->
  find_user_from k (store_user p u' us) id = find_user_from k us id.
Proof.
  revert k p. induction us as [ | v rest IH]; intros k [ | p]; cbn;
    try discriminate.
  - intros [= ->] Hid Hne. rewrite Hid.
    replace (user_id u =? id) with false
      by (symmetry; apply Z.eqb_neq; exact Hne).
    reflexivity.
  - intros Hn Hid Hne. destruct (user_id v =? id); [reflexivity | ].
    apply IH; assumption.
Qed.

Lemma find_user_from_app (us : list User) (k : nat) (id : Z) (n : User) :
  user_id n <> id ->
  find_user_from k (us ++ [n]) id = find_user_from k us id.
Proof.
  intros Hne. revert k. induction us as [ | v rest IH]; intros k; cbn.
  - replace (user_id n =? id) with false
      by (symmetry; apply Z.eqb_neq; exact Hne).
    reflexivity.
  - destruct (user_id v =? id); [reflexivity | apply IH].
Qed.


(** What a request does to the user table: nothing, one record appended
    by a registration, or one record replaced, identifier kept, in the
    slot of the user the request names; the purchase count of that record
    goes up by one exactly when a purchase completes. *)
Lemma serve_users (now : Z) (req : Request) (s : State) :
  let o := fst (serve now req s) in
  let s' := snd (serve now req s) in
  users s' = users s \/
  (exists nm ph student,
     req = ReqRegister nm ph student /\ user_count s < MAX_USERS /\
     users s'
     = users s ++ [mkUser (user_count s + 1) nm ph 0%float 0%float
                          0 0 0 0 0 student]) \/
  (exists (p : nat) (u u' : User),
     find_user s (request_target s req) = Some (p, u) /\
     user_id u' = user_id u /\
     transaction_count u'
     = (if is_purchased o then int_add (transaction_count u) 1
        else transaction_count u) /\
     users s' = store_user p u' (users s)).
Proof.
  destruct req as [nm ph student | uid amt | uid lit choice | uid pass_type];
    cbn [serve request_target].
  - unfold register_user. destruct (MAX_USERS <=? user_count s) eqn:E.
    + left. reflexivity.
    + right. left. exists nm, ph, student. apply Z.leb_gt in E. auto.
  - unfold top_up_wallet. destruct (find_user s uid) as [[p u] | ];
      [ | left; reflexivity].
    destruct (amt <=? 0)%float; [left; reflexivity | ].
    right. right. eexists p, u, _. split; [reflexivity | ].
    cbn [fst snd is_purchased].
    split; [ | split; [ | reflexivity]];
      destruct (100 <=? amt)%float; reflexivity.
  - unfold purchase_water. destruct (find_user s uid) as [[p u] | ];
      [ | left; reflexivity].
    destruct (lit <=? 0)%float; [left; reflexivity | ].
    destruct (choice =? 1).
    + pose proof (calculate_discount_user_id u lit "Cash") as Hid.
      pose proof (calculate_discount_keeps u lit "Cash") as Hk.
      destruct (calculate_discount u lit "Cash") as [d u1].
      cbn [snd] in Hid, Hk. destruct Hk as (_ & _ & Hc & _).
      right. right.
      exists p, u, (purchased_user u1 (lit * WATER_PRICE_PER_LITER)%float).
      split; [reflexivity | ].
      rewrite complete_purchase_users, complete_purchase_receipt.
      cbn [is_purchased]. split; [exact Hid | split; [ | reflexivity]].
      cbn. rewrite Hc. reflexivity.
    + destruct (choice =? 2); [ | left; reflexivity].
      assert (Hk : let u1 := snd (if is_pass_valid now u
                                  then (0%float, 0%float, u)
                                  else let '(discount, user) :=
                                         calculate_discount u lit "Digital" in
                                       (if (MIN_BULK_LITERS <=? lit)%float
                                        then 0%float
                                        else if (DIGITAL_FEE <=? discount)%float
                                             then 0%float
                                             else if (DIGITAL_FEE - discount <? 0)%float
                                                  then 0%float
                                                  else (DIGITAL_FEE - discount)%float,
                                        discount, user)) in
                   user_id u1 = user_id u /\
                   transaction_count u1 = transaction_count u).
      { destruct (is_pass_valid now u); [split; reflexivity | ].
        pose proof (calculate_discount_user_id u lit "Digital") as Hid.
        pose proof (calculate_discount_keeps u lit "Digital") as Hk.
        destruct (calculate_discount u lit "Digital") as [d u1].
        cbn [snd] in Hid, Hk |- *. destruct Hk as (_ & _ & Hc & _). auto. }
      destruct (if is_pass_valid now u then _ else _) as [[fee d] u1].
      cbn [snd] in Hk. destruct Hk as [Hid Hc].
      destruct (wallet_balance u1 <? _)%float.
      * right. right. exists p, u, u1. cbn [fst snd is_purchased]. auto.
      * right. right.
        exists p, u,
          (purchased_user
             (set_wallet_balance
                (wallet_balance u1
                 - (lit * WATER_PRICE_PER_LITER - d + fee))%float u1)
             (lit * WATER_PRICE_PER_LITER)%float).
        split; [reflexivity | ].
        rewrite complete_purchase_users, complete_purchase_receipt.
        cbn [is_purchased]. split; [exact Hid | split; [ | reflexivity]].
        cbn. rewrite Hc. reflexivity.
  - unfold purchase_pass. destruct (find_user s uid) as [[p u] | ];
      [ | left; reflexivity].
    destruct (pass_type =? 1);
      [ | destruct (pass_type =? 2); [ | left; reflexivity]];
      (destruct (wallet_balance u <? _)%float; [left; reflexivity | ]);
      right; right; eexists p, u, _;
      (split; [reflexivity
              | split; [ | split; [ | reflexivity]]]); reflexivity.
Qed.

(** X2. A request changes no record but the one it names: the search for
    any other identifier returns the same slot and the same record after
    the request as before it. *)
Theorem serve_frame (now : Z) (req : Request) (s : State) (id : Z) :
  request_target s req <> id ->
  find_user (snd (serve now req s)) id = find_user s id.
Proof.
  intros Hne.
  destruct (serve_users now req s)
    as [Hsame | [(nm & ph & st & -> & Hroom & Happ) | (p & u & u' & Hf & Hid & _ & Hst)]].
  - apply find_user_ext. exact Hsame.
  - unfold find_user. rewrite Happ. apply find_user_from_app. exact Hne.
  - unfold find_user. rewrite Hst.
    destruct (find_user_from_sound _ _ _ _ _ Hf) as (_ & Hn & Hu).
    rewrite Nat.sub_0_r in Hn.
    apply find_user_from_store_other with (u := u); try assumption.
    rewrite Hu. exact Hne.
Qed.

Lemma serve_frame_witness :
  request_target Session2.two_users (ReqTopUp 1 500%float) <> 2 /\
  find_user (snd (serve 30 (ReqTopUp 1 500%float) Session2.two_users)) 2
  = Some (1%nat, Session2.ravi_new).
Proof.
  split; [discriminate | ].
  rewrite (serve_frame 30 (ReqTopUp 1 500%float) Session2.two_users 2);
    [reflexivity | discriminate].
Defined.

(** ** Reachable states *)

Lemma run_app (a b : list (Z * Request)) (s : State) :
  run (a ++ b) s
  = (fst (run a s) ++ fst (run b (snd (run a s))),
     snd (run b (snd (run a s)))).
Proof.
  revert s. induction a as [ | [now req] rest IH]; intros s; cbn [app run].
  - cbn [fst snd app]. destruct (run b s); reflexivity.
  - destruct (serve now req s) as [o s1]. rewrite IH.
    destruct (run rest s1) as [os s2]. reflexivity.
Qed.

Lemma reachable_initial : reachable initial_state.
Proof. exists []. reflexivity. Qed.

Lemma reachable_serve (now : Z) (req : Request) (s : State) :
  reachable s -> reachable (snd (serve now req s)).
Proof.
  intros [reqs ->]. exists (reqs ++ [(now, req)]). rewrite run_app.
  cbn [snd run]. destruct (serve now req _); reflexivity.
Qed.

(** Induction over the requests of a session. *)
Lemma run_preserves (P : State -> Prop) :
  (forall now req s, P s -> P (snd (serve now req s))) ->
  forall reqs s, P s -> P (snd (run reqs s)).
Proof.
  intros Hstep. induction reqs as [ | [now req] rest IH]; intros s Hs.
  - exact Hs.
  - cbn [run]. specialize (Hstep now req s Hs).
    destruct (serve now req s) as [o s1]. specialize (IH s1 Hstep).
    destruct (run rest s1) as [os s2]. exact IH.
Qed.

Lemma reachable_ind (P : State -> Prop) :
  P initial_state ->
  (forall now req s, P s -> P (snd (serve now req s))) ->
  forall s, reachable s -> P s.
Proof.
  intros H0 Hstep s [reqs ->]. apply run_preserves; assumption.
Qed.

Lemma serve_users_wf (now : Z) (req : Request) (s : State) :
  users_wf s -> users_wf (snd (serve now req s)).
Proof.
  intros [Hids Hcap]. unfold users_wf, user_count in *.
  destruct (serve_users now req s)
    as [Hsame | [(nm & ph & st & -> & Hroom & Happ) | (p & u & u' & Hf & Hid & _ & Hst)]].
  - rewrite Hsame. auto.
  - rewrite Happ. unfold user_count in Hroom. split.
    + intros q v Hq.
      destruct (Nat.lt_ge_cases q (List.length (users s))) as [Hlt | Hge].
      * rewrite nth_error_app1 in Hq by exact Hlt. apply Hids. exact Hq.
      * rewrite nth_error_app2 in Hq by exact Hge.
        destruct (q - List.length (users s))%nat as [ | d] eqn:Ed;
          cbn [nth_error] in Hq.
        -- injection Hq as <-. cbn [user_id]. unfold user_count. lia.
        -- destruct d; discriminate.
    + rewrite length_app. cbn [List.length]. lia.
  - rewrite Hst, store_user_length. split; [ | exact Hcap].
    destruct (find_user_from_sound _ _ _ _ _ Hf) as (_ & Hn & _).
    rewrite Nat.sub_0_r in Hn.
    intros q v Hq. destruct (Nat.eq_dec q p) as [-> | Hqp].
    + rewrite (store_user_same_slot _ _ _ _ Hn) in Hq. injection Hq as <-.
      rewrite Hid. apply Hids. exact Hn.
    + rewrite store_user_other in Hq by exact Hqp. apply Hids. exact Hq.
Qed.

Lemma initial_users_wf : users_wf initial_state.
Proof.
  split.
  - intros [ | p] u; discriminate.
  - unfold user_count, MAX_USERS. cbn. lia.
Qed.

Lemma find_user_wf (s : State) (id : Z) (p : nat) (u : User) :
  users_wf s ->
  (find_user s id = Some (p, u) <->
   nth_error (users s) p = Some u /\ id = Z.of_nat p + 1).
Proof.
  intros [Hids _]. pose proof (find_user_cases s id) as Hspec. split.
  - intros Hf. rewrite Hf in Hspec. destruct Hspec as (Hn & Hid & _).
    split; [exact Hn | ]. rewrite <- Hid. apply Hids. exact Hn.
  - intros [Hn ->]. destruct (find_user s (Z.of_nat p + 1)) as [[q v] | ].
    + destruct Hspec as (Hq & Hid & _). pose proof (Hids _ _ Hq) as Hv.
      assert (q = p) by lia. subst q. rewrite Hn in Hq. injection Hq as ->.
      reflexivity.
    + exfalso. apply (Hspec u); [ | apply Hids; exact Hn].
      apply nth_error_In with (n := p). exact Hn.
Qed.

(** X3. In every state the program can reach, identifiers are the slot
    numbers plus one: there are at most MAX_USERS records, no two share an
    identifier, and [find_user] returns slot [p] with record [u] exactly
    for the identifier [p + 1] of the record stored in slot [p]. *)
Theorem reachable_user_table (s : State) :
  reachable s ->
  user_count s <= MAX_USERS /\
  (forall (id : Z) (p : nat) (u : User),
     find_user s id = Some (p, u) <->
     nth_error (users s) p = Some u /\ id = Z.of_nat p + 1) /\
  (forall (p q : nat) (u v : User),
     nth_error (users s) p = Some u -> nth_error (users s) q = Some v ->
     user_id u = user_id v -> p = q).
Proof.
  intros Hr.
  assert (Hwf : users_wf s).
  { revert s Hr. apply reachable_ind;
      [exact initial_users_wf | exact serve_users_wf]. }
  split; [exact (proj2 Hwf) | split].
  - intros id p u. apply find_user_wf. exact Hwf.
  - intros p q u v Hp Hq Heq. destruct Hwf as [Hids _].
    rewrite (Hids _ _ Hp), (Hids _ _ Hq) in Heq. lia.
Qed.

Lemma reachable_user_table_witness :
  reachable Session2.two_users /\
  find_user Session2.two_users 2 = Some (1%nat, Session2.ravi_new).
Proof.
  assert (Hr : reachable Session2.two_users).
  { exists Session2.two_users_requests. reflexivity. }
  split; [exact Hr | ].
  apply (proj1 (proj2 (reachable_user_table Session2.two_users Hr))).
  split; reflexivity.
Defined.

(** X4. In a reachable state with a free slot, registration assigns the
    next identifier, and looking that identifier up afterwards returns the
    new record: empty wallet, nothing spent, no points, no pass. *)
Theorem register_then_find (nm ph : string) (student : Z) (s : State) :
  reachable s ->
  user_count s < MAX_USERS ->
  let new_user :=
    mkUser (user_count s + 1) nm ph 0%float 0%float 0 0 0 0 0 student in
  exists s' : State,
    register_user nm ph student s = (Registered (user_count s + 1), s') /\
    find_user s' (user_count s + 1)
    = Some (List.length (users s), new_user) /\
    user_count s' = user_count s + 1 /\
    (forall now : Z, is_pass_valid now new_user = false).
Proof.
  intros Hr Hroom new_user.
  assert (Hwf : users_wf s).
  { revert s Hr Hroom new_user. intros s Hr _.
    revert s Hr. apply reachable_ind;
      [exact initial_users_wf | exact serve_users_wf]. }
  pose proof (serve_users_wf 0 (ReqRegister nm ph student) s Hwf) as Hwf'.
  cbn [serve] in Hwf'. revert Hwf'. unfold register_user.
  replace (MAX_USERS <=? user_count s) with false
    by (symmetry; apply Z.leb_gt; exact Hroom).
  cbn [snd user_id]. intros Hwf'. eexists. split; [reflexivity | ].
  split; [ | split].
  - apply (find_user_wf _ _ _ _ Hwf'). cbn [users set_users]. split.
    + rewrite nth_error_app2 by lia. rewrite Nat.sub_diag. reflexivity.
    + unfold user_count. reflexivity.
  - unfold user_count. cbn [users set_users]. rewrite length_app.
    cbn [List.length]. lia.
  - intros now. reflexivity.
Qed.

Lemma register_then_find_witness :
  reachable Session2.two_users /\
  user_count Session2.two_users < MAX_USERS /\
  exists s' : State,
    register_user "Mina" "5550102" 0 Session2.two_users = (Registered 3, s') /\
    find_user s' 3
    = Some (2%nat, mkUser 3 "Mina" "5550102" 0%float 0%float 0 0 0 0 0 0).
Proof.
  assert (Hr : reachable Session2.two_users).
  { exists Session2.two_users_requests. reflexivity. }
  assert (Hroom : user_count Session2.two_users < MAX_USERS)
    by (vm_compute; reflexivity).
  split; [exact Hr | split; [exact Hroom | ]].
  destruct (register_then_find "Mina" "5550102" 0 Session2.two_users Hr Hroom)
    as (s' & Hreg & Hfind & _).
  exists s'. split; [exact Hreg | exact Hfind].
Defined.

(** ** Refusals *)

(** X5. Whatever is refused on validation (unknown user, amount or
    quantity not positive, payment method or pass type out of range, user
    table full) leaves the whole state as it was; so does a pass purchase
    refused for insufficient balance. *)
Theorem rejection_leaves_state (now : Z) (req : Request) (s s' : State)
    (o : Outcome) :
  serve now req s = (o, s') ->
  is_rejection o = true \/
  (exists (uid pass_type : Z) (need have : float),
     req = ReqPass uid pass_type /\ o = InsufficientBalance need have) ->
  s' = s.
Proof.
  intros Hserve Hrej.
  assert (Hcases : s' = s \/
                   (is_rejection o = false /\
                    forall uid pass_type, req <> ReqPass uid pass_type) \/
                   (is_rejection o = false /\
                    forall need have, o <> InsufficientBalance need have)).
  { destruct req as [nm ph student | uid amt | uid lit choice | uid pass_type];
      cbn [serve] in Hserve.
    - unfold register_user in Hserve.
      destruct (MAX_USERS <=? user_count s); injection Hserve as <- <-;
        [left; reflexivity | right; left; split; [reflexivity | discriminate]].
    - unfold top_up_wallet in Hserve.
      destruct (find_user s uid) as [[p u] | ];
        [destruct (amt <=? 0)%float | ]; injection Hserve as <- <-;
        try (left; reflexivity).
      right; left; split; [reflexivity | discriminate].
    - unfold purchase_water in Hserve.
      destruct (find_user s uid) as [[p u] | ];
        [ | injection Hserve as <- <-; left; reflexivity].
      destruct (lit <=? 0)%float;
        [injection Hserve as <- <-; left; reflexivity | ].
      destruct (choice =? 1).
      + destruct (calculate_discount u lit "Cash") as [d u1].
        unfold complete_purchase in Hserve. injection Hserve as <- _.
        right; left; split; [reflexivity | discriminate].
      + destruct (choice =? 2);
          [ | injection Hserve as <- <-; left; reflexivity].
        destruct (if is_pass_valid now u then _ else _) as [[fee d] u1].
        destruct (wallet_balance u1 <? _)%float.
        * injection Hserve as <- _.
          right; left; split; [reflexivity | discriminate].
        * unfold complete_purchase in Hserve. injection Hserve as <- _.
          right; left; split; [reflexivity | discriminate].
    - unfold purchase_pass in Hserve.
      destruct (find_user s uid) as [[p u] | ];
        [ | injection Hserve as <- <-; left; reflexivity].
      destruct (pass_type =? 1);
        [ | destruct (pass_type =? 2);
            [ | injection Hserve as <- <-; left; reflexivity]];
        (destruct (wallet_balance u <? _)%float; injection Hserve as <- <-;
         [left; reflexivity
         | right; right; split; [reflexivity | discriminate]]). }
  destruct Hcases as [Hs | [[Hn Hreq] | [Hn Ho]]]; [exact Hs | | ].
  - destruct Hrej as [Hr | (uid & pt & need & have & -> & _)];
      [congruence | ]. exfalso. exact (Hreq uid pt eq_refl).
  - destruct Hrej as [Hr | (uid & pt & need & have & _ & ->)];
      [congruence | ]. exfalso. exact (Ho need have eq_refl).
Qed.

Lemma rejection_leaves_state_witness :
  serve 40 (ReqPurchase 1 (-3)%float 2) Session.funded
  = (InvalidQuantity, Session.funded) /\
  is_rejection InvalidQuantity = true /\
  snd (serve 40 (ReqPurchase 1 (-3)%float 2) Session.funded) = Session.funded.
Proof.
  split; [reflexivity | split; [reflexivity | ]].
  apply (rejection_leaves_state 40 (ReqPurchase 1 (-3)%float 2) Session.funded
           _ InvalidQuantity);
    [reflexivity | left; reflexivity].
Defined.

(** ** Cash purchases *)

(** X6. A cash purchase by a known user for a quantity that is not
    refused always completes, whatever the wallet holds: no fee, the
    amount due is the base cost minus the discount, the wallet is not
    touched, and the base cost (not the amount paid) is added to the
    lifetime spending. *)
Theorem cash_purchase_completes (now uid : Z) (lit : float) (s : State)
    (p : nat) (u : User) :
  find_user s uid = Some (p, u) ->
  (lit <=? 0)%float = false ->
  exists (r : Receipt) (s' : State) (u' : User),
    purchase_water now uid lit 1 s = (Purchased r, s') /\
    r_fee r = 0%float /\
    r_base_cost r = (lit * WATER_PRICE_PER_LITER)%float /\
    r_final_amount r = (r_base_cost r - r_discount r)%float /\
    find_user s' uid = Some (p, u') /\
    wallet_balance u' = wallet_balance u /\
    total_spent u' = (total_spent u + r_base_cost r)%float /\
    transaction_count u' = int_add (transaction_count u) 1.
Proof.
  intros Hfind Hpos. unfold purchase_water. rewrite Hfind, Hpos.
  cbn [Z.eqb Pos.eqb].
  pose proof (calculate_discount_user_id u lit "Cash") as Hid.
  pose proof (calculate_discount_keeps u lit "Cash") as Hkeep.
  destruct (calculate_discount u lit "Cash") as [d u1].
  cbn [snd] in Hid, Hkeep. destruct Hkeep as (Hw & Ht & Hc & _).
  exists (mkReceipt (lit * WATER_PRICE_PER_LITER)%float d 0%float
                    (lit * WATER_PRICE_PER_LITER - d)%float "Cash"
                    (double_to_int (lit * WATER_PRICE_PER_LITER)%float)),
         (snd (complete_purchase now uid p u1 lit
                 (lit * WATER_PRICE_PER_LITER)%float
                 (lit * WATER_PRICE_PER_LITER - d)%float "Cash" 0%float d
                 (set_stats (incr_cash_transactions (stats s)) s))),
         (purchased_user u1 (lit * WATER_PRICE_PER_LITER)%float).
  split; [reflexivity | ].
  cbn [r_fee r_base_cost r_final_amount r_discount].
  repeat split.
  - apply complete_purchase_find with (s := s) (u := u);
      [exact Hfind | reflexivity | exact Hid].
  - exact Hw.
  - cbn. rewrite Ht. reflexivity.
  - cbn. rewrite Hc. reflexivity.
Qed.

Lemma cash_purchase_completes_witness :
  find_user Session.one_user 1 = Some (0%nat, Session.asha) /\
  (12 <=? 0)%float = false /\
  exists (r : Receipt) (s' : State),
    purchase_water 50 1 12%float 1 Session.one_user = (Purchased r, s') /\
    r_fee r = 0%float /\
    r_final_amount r = (r_base_cost r - r_discount r)%float.
Proof.
  split; [reflexivity | split; [reflexivity | ]].
  destruct (cash_purchase_completes 50 1 12%float Session.one_user 0
              Session.asha eq_refl eq_refl)
    as (r & s' & u' & Hrun & Hfee & _ & Hfin & _).
  exists r, s'. split; [exact Hrun | split; [exact Hfee | exact Hfin]].
Defined.

(** ** Purchases without any discount *)

Lemma write_user_same (s : State) (uid : Z) (p : nat) (u : User) :
  find_user s uid = Some (p, u) -> write_user p u s = s.
Proof.
  intros Hf. destruct (find_user_from_sound _ _ _ _ _ Hf) as (_ & Hn & _).
  rewrite Nat.sub_0_r in Hn. unfold write_user, set_users.
  rewrite (store_user_id _ _ _ Hn). destruct s; reflexivity.
Qed.

(** X7. A user who is not a student, has spent less than 50.00, holds
    fewer than 100 points and buys less than 10 liters gets a discount of
    exactly 0 and keeps the points.  Paying such a purchase from the wallet
    without a valid pass costs the base cost plus the full fee of 1.00: it
    is refused, with the state unchanged, when the wallet holds less, and
    completes with fee 1.00 otherwise. *)
Theorem plain_digital_purchase (now uid : Z) (lit : float) (s : State)
    (p : nat) (u : User) :
  find_user s uid = Some (p, u) ->
  is_student u = 0 ->
  (LOYALTY_THRESHOLD <=? total_spent u)%float = false ->
  loyalty_points u < 100 ->
  is_pass_valid now u = false ->
  (0 <? lit)%float = true ->
  (lit <? 10)%float = true ->
  let base_cost := (lit * WATER_PRICE_PER_LITER)%float in
  let due := (base_cost - 0 + 1)%float in
  (forall method : string, calculate_discount u lit method = (0%float, u)) /\
  ((wallet_balance u <? due)%float = true ->
     purchase_water now uid lit 2 s
     = (InsufficientBalance due (wallet_balance u), s)) /\
  ((wallet_balance u <? due)%float = false ->
     exists s' : State,
       purchase_water now uid lit 2 s
       = (Purchased (mkReceipt base_cost 0%float 1%float due "Digital"
                               (double_to_int base_cost)), s')).
Proof.
  intros Hfind Hst Hts Hlp Hpass Hpos Hsmall. cbv zeta.
  pose proof (FloatOrder.ltb_not_geb _ _ Hsmall) as Hbulk.
  pose proof (FloatOrder.ltb_not_geb _ _ Hpos) as Hqty.
  assert (Hdisc : forall method, calculate_discount u lit method = (0%float, u)).
  { intros method. unfold calculate_discount, MIN_BULK_LITERS.
    rewrite Hst, Hts, Hbulk. cbn [Z.eqb negb].
    replace (100 <=? loyalty_points u) with false
      by (symmetry; apply Z.leb_gt; exact Hlp).
    reflexivity. }
  split; [exact Hdisc | ].
  unfold purchase_water. rewrite Hfind, Hqty, Hpass, (Hdisc "Digital"%string).
  cbn [Z.eqb Pos.eqb]. unfold MIN_BULK_LITERS. rewrite Hbulk.
  change (DIGITAL_FEE <=? 0)%float with false.
  change (DIGITAL_FEE - 0 <? 0)%float with false.
  change (DIGITAL_FEE - 0)%float with 1%float.
  split.
  - intros Hlow. rewrite Hlow, (write_user_same _ _ _ _ Hfind). reflexivity.
  - intros Hok. rewrite Hok. eexists. unfold complete_purchase. reflexivity.
Qed.

Lemma plain_digital_purchase_witness :
  find_user Session.funded 1 = Some (0%nat, Session.asha_funded) /\
  (0 <? 3)%float = true /\ (3 <? 10)%float = true /\
  exists s' : State,
    purchase_water 20 1 3%float 2 Session.funded
    = (Purchased (mkReceipt 6%float 0%float 1%float 7%float "Digital" 6), s').
Proof.
  split; [reflexivity | split; [reflexivity | split; [reflexivity | ]]].
  assert (Hlp : loyalty_points Session.asha_funded < 100)
    by (vm_compute; reflexivity).
  exact (proj2 (proj2 (plain_digital_purchase 20 1 3%float Session.funded 0
                         Session.asha_funded eq_refl eq_refl eq_refl Hlp
                         eq_refl eq_refl eq_refl)) eq_refl).
Defined.

(** ** Validity of a pass *)



(** X9. A weekly pass bought while a monthly pass is running replaces the
    expiry by the purchase time plus 7 days, so the remaining monthly
    validity is lost; the monthly flag stays set and the profile goes on
    showing a monthly pass, now with at most 7 days remaining. *)
Theorem weekly_after_monthly_shortens (now later uid : Z) (s s1 s2 : State)
    (p : nat) (u : User) (c1 c2 : float) (d1 d2 : Z) (b1 b2 : float) :
  find_user s uid = Some (p, u) ->
  purchase_pass now uid 2 s = (PassPurchased c1 d1 b1, s1) ->
  purchase_pass later uid 1 s1 = (PassPurchased c2 d2 b2, s2) ->
  exists u2 : User,
    find_user s2 uid = Some (p, u2) /\
    pass_expiry u2 = later + 7 * 86400 /\
    has_monthly_pass u2 = 1 /\
    view_user_profile_pass later u2 = Some ("Monthly"%string, 7).
Proof.
  intros Hfind Hm Hw.
  destruct (purchase_pass_inv _ _ _ _ _ _ _ _ _ _ Hfind Hm)
    as (_ & _ & Hfind1).
  destruct (purchase_pass_inv _ _ _ _ _ _ _ _ _ _ Hfind1 Hw)
    as (_ & _ & Hfind2).
  exists (pass_bought later 1 (pass_bought now 2 u)).
  split; [exact Hfind2 | ].
  unfold view_user_profile_pass, is_pass_valid, pass_bought. cbn.
  repeat split.
  replace (later <? later + 604800) with true
    by (symmetry; apply Z.ltb_lt; lia).
  replace (later + 604800 - later) with 604800 by lia. reflexivity.
Qed.

Lemma weekly_after_monthly_shortens_witness :
  find_user Session2.rich 1 = Some (0%nat, Session2.asha_rich) /\
  purchase_pass 1000 1 2 Session2.rich
  = (PassPurchased 50%float 30 460%float, Session2.monthly_holder) /\
  purchase_pass 2000 1 1 Session2.monthly_holder
  = (PassPurchased 15%float 7 445%float, Session2.downgraded) /\
  exists u2 : User,
    find_user Session2.downgraded 1 = Some (0%nat, u2) /\
    pass_expiry u2 = 2000 + 7 * 86400 /\
    view_user_profile_pass 2000 u2 = Some ("Monthly"%string, 7).
Proof.
  split; [reflexivity | split; [reflexivity | split; [reflexivity | ]]].
  destruct (weekly_after_monthly_shortens 1000 2000 1 Session2.rich
              Session2.monthly_holder Session2.downgraded 0 Session2.asha_rich
              50%float 15%float 30 7 460%float 445%float
              eq_refl eq_refl eq_refl)
    as (u2 & Hf & He & _ & Hv).
  exists u2. split; [exact Hf | split; [exact He | exact Hv]].
Defined.

Lemma insufficient_balance_frame_witness :
  find_user Session.hundred_points 1 = Some (0%nat, Session.asha_hundred) /\
  purchase_water 20 1 50%float 2 Session.hundred_points
  = (InsufficientBalance 86%float 0%float,
     snd (purchase_water 20 1 50%float 2 Session.hundred_points)) /\
  transactions (snd (purchase_water 20 1 50%float 2 Session.hundred_points))
  = transactions Session.hundred_points /\
  stats (snd (purchase_water 20 1 50%float 2 Session.hundred_points))
  = stats Session.hundred_points.
Proof.
  split; [reflexivity | split; [reflexivity | ]].
  destruct (insufficient_balance_frame 20 1 50%float 2 Session.hundred_points
              (snd (purchase_water 20 1 50%float 2 Session.hundred_points))
              0 Session.asha_hundred 86%float 0%float eq_refl eq_refl)
    as (Ht & Hs & _).
  split; [exact Ht | exact Hs].
Defined.

(** ** What a completed purchase writes *)

Lemma save_transaction_ledger now uid amt lit method fee discount s :
  transactions (save_transaction now uid amt lit method fee discount s)
  = if MAX_TRANSACTIONS <=? g_transaction_count s then transactions s
    else transactions s
         ++ [mkTransaction (g_transaction_count s + 1) uid amt lit method
                           fee discount now].
Proof.
  unfold save_transaction.
  destruct (MAX_TRANSACTIONS <=? g_transaction_count s); reflexivity.
Qed.

Lemma complete_purchase_state now uid p user lit base_cost final_amount
    method fee discount s :
  let s' := snd (complete_purchase now uid p user lit base_cost final_amount
                                   method fee discount s) in
  transactions s'
  = (if MAX_TRANSACTIONS <=? g_transaction_count s then transactions s
     else transactions s
          ++ [mkTransaction (g_transaction_count s + 1) uid final_amount lit
                            method fee discount now]) /\
  stats s'
  = add_totals base_cost fee discount
      (if (MIN_BULK_LITERS <=? lit)%float
       then incr_bulk_purchases (stats s) else stats s).
Proof.
  unfold complete_purchase. cbn [snd]. cbv zeta.
  cbn [set_stats transactions stats].
  rewrite save_transaction_ledger, save_transaction_stats.
  destruct (MIN_BULK_LITERS <=? lit)%float; split; reflexivity.
Qed.

(** Inversion of a completed purchase: the request it answers, its
    receipt, and the state it leaves. *)
Lemma serve_purchased (now : Z) (req : Request)
    (s s' : State) (r : Receipt) :
  serve now req s = (Purchased r, s') ->
  exists (uid : Z) (lit : float) (choice : Z) (p : nat) (u : User),
    req = ReqPurchase uid lit choice /\
    find_user s uid = Some (p, u) /\
    (lit <=? 0)%float = false /\
    r_base_cost r = (lit * WATER_PRICE_PER_LITER)%float /\
    ((choice = 1 /\ r_payment_method r = "Cash"%string /\
      r_fee r = 0%float /\
      r_final_amount r = (r_base_cost r - r_discount r)%float) \/
     (choice = 2 /\ r_payment_method r = "Digital"%string /\
      r_final_amount r = (r_base_cost r - r_discount r + r_fee r)%float)) /\
    stats s' = stats_after_purchase lit r (stats s) /\
    transactions s'
    = (if MAX_TRANSACTIONS <=? g_transaction_count s then transactions s
       else transactions s ++ [recorded now uid lit r (g_transaction_count s)]).
Proof.
  intros Hserve.
  destruct req as [nm ph student | uid amt | uid lit choice | uid pass_type];
    cbn [serve] in Hserve.
  - unfold register_user in Hserve.
    destruct (MAX_USERS <=? user_count s); discriminate.
  - unfold top_up_wallet in Hserve.
    destruct (find_user s uid) as [[p u] | ];
      [destruct (amt <=? 0)%float | ]; discriminate.
  - unfold purchase_water in Hserve.
    destruct (find_user s uid) as [[p u] | ] eqn:Hfind; [ | discriminate].
    destruct (lit <=? 0)%float eqn:Hqty; [discriminate | ].
    exists uid, lit, choice, p, u.
    split; [reflexivity | split; [exact Hfind | split; [exact Hqty | ]]].
    destruct (choice =? 1) eqn:C1.
    + apply Z.eqb_eq in C1.
      destruct (calculate_discount u lit "Cash") as [d u1].
      pose proof (f_equal fst Hserve) as Hr.
      pose proof (f_equal snd Hserve) as Hs. cbn [fst snd] in Hr, Hs.
      rewrite complete_purchase_receipt in Hr. injection Hr as <-.
      cbn [r_base_cost r_payment_method r_fee r_final_amount r_discount].
      split; [reflexivity | split; [left; auto | ]].
      rewrite <- Hs.
      destruct (complete_purchase_state now uid p u1 lit
                  (lit * WATER_PRICE_PER_LITER)%float
                  (lit * WATER_PRICE_PER_LITER - d)%float "Cash" 0%float d
                  (set_stats (incr_cash_transactions (stats s)) s))
        as [Ht Hst].
      split; [rewrite Hst; reflexivity | rewrite Ht; reflexivity].
    + destruct (choice =? 2) eqn:C2; [ | discriminate].
      apply Z.eqb_eq in C2.
      destruct (if is_pass_valid now u then _ else _) as [[fee d] u1].
      destruct (wallet_balance u1 <? _)%float; [discriminate | ].
      pose proof (f_equal fst Hserve) as Hr.
      pose proof (f_equal snd Hserve) as Hs. cbn [fst snd] in Hr, Hs.
      rewrite complete_purchase_receipt in Hr. injection Hr as <-.
      cbn [r_base_cost r_payment_method r_fee r_final_amount r_discount].
      split; [reflexivity | split; [right; auto | ]].
      rewrite <- Hs.
      match goal with
      | |- context [complete_purchase now uid p ?usr lit ?b ?f "Digital"
                                      fee d ?st] =>
          destruct (complete_purchase_state now uid p usr lit b f "Digital"
                      fee d st) as [Ht Hst]
      end.
      split; [rewrite Hst; reflexivity | rewrite Ht; reflexivity].
  - unfold purchase_pass in Hserve.
    destruct (find_user s uid) as [[p u] | ]; [ | discriminate].
    destruct (pass_type =? 1);
      [ | destruct (pass_type =? 2); [ | discriminate]];
      (destruct (wallet_balance u <? _)%float; discriminate).
Qed.



(** ** The ledger along a session *)

Lemma serve_not_purchased (now : Z) (req : Request) (s s' : State)
    (o : Outcome) :
  serve now req s = (o, s') ->
  is_purchased o = false ->
  transactions s' = transactions s /\
  stats s' = (if is_pass_purchased o then incr_pass_holders (stats s)
              else stats s).
Proof.
  intros Hserve.
  destruct req as [nm ph student | uid amt | uid lit choice | uid pass_type];
    cbn [serve] in Hserve.
  - unfold register_user in Hserve.
    destruct (MAX_USERS <=? user_count s); injection Hserve as <- <-;
      split; reflexivity.
  - unfold top_up_wallet in Hserve.
    destruct (find_user s uid) as [[p u] | ];
      [destruct (amt <=? 0)%float | ]; injection Hserve as <- <-;
      split; reflexivity.
  - unfold purchase_water in Hserve.
    destruct (find_user s uid) as [[p u] | ];
      [ | injection Hserve as <- <-; split; reflexivity].
    destruct (lit <=? 0)%float;
      [injection Hserve as <- <-; split; reflexivity | ].
    destruct (choice =? 1).
    + destruct (calculate_discount u lit "Cash") as [d u1].
      unfold complete_purchase in Hserve. injection Hserve as <- _.
      discriminate.
    + destruct (choice =? 2);
        [ | injection Hserve as <- <-; split; reflexivity].
      destruct (if is_pass_valid now u then _ else _) as [[fee d] u1].
      destruct (wallet_balance u1 <? _)%float.
      * injection Hserve as <- <-. split; reflexivity.
      * unfold complete_purchase in Hserve. injection Hserve as <- _.
        discriminate.
  - unfold purchase_pass in Hserve.
    destruct (find_user s uid) as [[p u] | ];
      [ | injection Hserve as <- <-; split; reflexivity].
    destruct (pass_type =? 1);
      [ | destruct (pass_type =? 2);
          [ | injection Hserve as <- <-; split; reflexivity]];
      (destruct (wallet_balance u <? _)%float; injection Hserve as <- <-;
       split; reflexivity).
Qed.

(** One request adds one record when it completes a purchase and there is
    room, and none otherwise. *)
Lemma serve_ledger (now : Z) (req : Request) (s s' : State) (o : Outcome) :
  serve now req s = (o, s') ->
  transactions s' = transactions s \/
  (exists (uid : Z) (lit : float) (choice : Z) (r : Receipt),
     req = ReqPurchase uid lit choice /\ o = Purchased r /\
     g_transaction_count s < MAX_TRANSACTIONS /\
     transactions s'
     = transactions s ++ [recorded now uid lit r (g_transaction_count s)]).
Proof.
  intros Hserve. destruct (is_purchased o) eqn:Hp.
  - destruct o; try discriminate.
    destruct (serve_purchased _ _ _ _ _ Hserve)
      as (uid & lit & choice & p & u & Hreq & _ & _ & _ & _ & _ & Ht).
    destruct (MAX_TRANSACTIONS <=? g_transaction_count s) eqn:E.
    + left. exact Ht.
    + right. exists uid, lit, choice, r. apply Z.leb_gt in E. auto.
  - left. exact (proj1 (serve_not_purchased _ _ _ _ _ Hserve Hp)).
Qed.

Lemma serve_count (now : Z) (req : Request) (s s' : State) (o : Outcome) :
  serve now req s = (o, s') ->
  g_transaction_count s + (if is_purchased o then 1 else 0)
  <= MAX_TRANSACTIONS ->
  g_transaction_count s'
  = g_transaction_count s + (if is_purchased o then 1 else 0).
Proof.
  intros Hserve Hroom. unfold g_transaction_count in *.
  destruct (is_purchased o) eqn:Hp.
  - destruct o; try discriminate.
    destruct (serve_purchased _ _ _ _ _ Hserve)
      as (uid & lit & choice & p & u & _ & _ & _ & _ & _ & _ & Ht).
    unfold g_transaction_count in Ht.
    replace (MAX_TRANSACTIONS <=? Z.of_nat (List.length (transactions s)))
      with false in Ht by (symmetry; apply Z.leb_gt; lia).
    rewrite Ht, length_app. cbn [List.length]. lia.
  - rewrite (proj1 (serve_not_purchased _ _ _ _ _ Hserve Hp)). lia.
Qed.

(** Induction over a session that stays within the ledger capacity. *)
Lemma run_within_capacity (P : State -> Prop) :
  (forall now req s o s',
     serve now req s = (o, s') -> P s ->
     g_transaction_count s + (if is_purchased o then 1 else 0)
     <= MAX_TRANSACTIONS ->
     P s') ->
  forall reqs s,
    P s ->
    g_transaction_count s + purchases (fst (run reqs s)) <= MAX_TRANSACTIONS ->
    P (snd (run reqs s)) /\
    g_transaction_count (snd (run reqs s))
    = g_transaction_count s + purchases (fst (run reqs s)).
Proof.
  intros Hstep. induction reqs as [ | [now req] rest IH]; intros s Hs Hroom.
  - cbn [run fst snd]. split; [exact Hs | unfold purchases; cbn; lia].
  - cbn [run] in Hroom |- *.
    destruct (serve now req s) as [o s1] eqn:Hserve.
    destruct (run rest s1) as [os s2] eqn:Hrest.
    cbn [fst snd] in Hroom |- *. rewrite purchases_cons in Hroom |- *.
    pose proof (purchases_nonneg os) as Hos.
    assert (Hroom1 : g_transaction_count s + (if is_purchased o then 1 else 0)
                     <= MAX_TRANSACTIONS) by lia.
    pose proof (serve_count _ _ _ _ _ Hserve Hroom1) as Hcnt.
    specialize (IH s1 (Hstep _ _ _ _ _ Hserve Hs Hroom1)).
    rewrite Hrest in IH. cbn [fst snd] in IH.
    destruct IH as [HP Hc]; [lia | ]. split; [exact HP | lia].
Qed.

(** X12. The ledger is append-only and bounded: whatever the requests,
    the ledger after a session is the ledger before it followed by at most
    one new record per completed purchase, and a ledger of at most
    MAX_TRANSACTIONS records never grows beyond MAX_TRANSACTIONS. *)
Theorem ledger_append_only (reqs : list (Z * Request)) (s : State) :
  exists added : list Transaction,
    transactions (snd (run reqs s)) = transactions s ++ added /\
    Z.of_nat (List.length added) <= purchases (fst (run reqs s)) /\
    (g_transaction_count s <= MAX_TRANSACTIONS ->
     g_transaction_count (snd (run reqs s)) <= MAX_TRANSACTIONS).
Proof.
  revert s. induction reqs as [ | [now req] rest IH]; intros s.
  - exists []. cbn [run fst snd]. rewrite app_nil_r.
    split; [reflexivity | split; [unfold purchases; cbn; lia | auto]].
  - cbn [run]. destruct (serve now req s) as [o s1] eqn:Hserve.
    destruct (IH s1) as (added & Ht & Hlen & Hcap).
    destruct (run rest s1) as [os s2] eqn:Hrest.
    cbn [fst snd] in *. rewrite purchases_cons.
    destruct (serve_ledger _ _ _ _ _ Hserve)
      as [Hsame | (uid & lit & choice & r & _ & -> & Hroom & Happ)].
    + exists added. rewrite Ht, Hsame. split; [reflexivity | ].
      split; [destruct (is_purchased o); lia | ].
      intros Hb. apply Hcap. unfold g_transaction_count in *.
      rewrite Hsame. exact Hb.
    + exists (recorded now uid lit r (g_transaction_count s) :: added).
      rewrite Ht, Happ, <- app_assoc. split; [reflexivity | ].
      cbn [is_purchased List.length]. split; [lia | ].
      intros _. apply Hcap. unfold g_transaction_count in *.
      rewrite Happ, length_app. cbn [List.length]. lia.
Qed.

(** ** Well-formed ledgers *)

Lemma serve_user_count (now : Z) (req : Request) (s : State) :
  user_count s <= user_count (snd (serve now req s)).
Proof.
  unfold user_count.
  destruct (serve_users now req s)
    as [Hsame | [(nm & ph & st & _ & _ & Happ) | (p & u & u' & _ & _ & _ & Hst)]].
  - rewrite Hsame. lia.
  - rewrite Happ, length_app. lia.
  - rewrite Hst, store_user_length. lia.
Qed.

Lemma record_ok_mono (s s' : State) (i : nat) (t : Transaction) :
  user_count s <= user_count s' -> record_ok s i t -> record_ok s' i t.
Proof.
  unfold record_ok. intros Hle (Hid & Hu & Hq & Hm).
  repeat split; try assumption; lia.
Qed.

Lemma serve_ledger_wf (now : Z) (req : Request) (s : State) :
  users_wf s -> ledger_wf s -> ledger_wf (snd (serve now req s)).
Proof.
  intros Hwf [Hcap Hrec].
  pose proof (serve_user_count now req s) as Hmono.
  destruct (serve now req s) as [o s'] eqn:Hserve. cbn [snd] in *.
  destruct (serve_ledger _ _ _ _ _ Hserve)
    as [Hsame | (uid & lit & choice & r & -> & -> & Hroom & Happ)].
  - split.
    + unfold g_transaction_count in *. rewrite Hsame. exact Hcap.
    + rewrite Hsame. intros i t Hi.
      apply (record_ok_mono s); [exact Hmono | apply Hrec; exact Hi].
  - split.
    + unfold g_transaction_count in *. rewrite Happ, length_app.
      cbn [List.length]. lia.
    + rewrite Happ. intros i t Hi.
      destruct (Nat.lt_ge_cases i (List.length (transactions s))) as [Hlt | Hge].
      * rewrite nth_error_app1 in Hi by exact Hlt.
        apply (record_ok_mono s); [exact Hmono | apply Hrec; exact Hi].
      * rewrite nth_error_app2 in Hi by exact Hge.
        destruct (i - List.length (transactions s))%nat as [ | k] eqn:Ek;
          cbn [nth_error] in Hi; [ | destruct k; discriminate].
        injection Hi as <-.
        destruct (serve_purchased _ _ _ _ _ Hserve)
          as (uid' & lit' & choice' & p & u & Hreq & Hfind & Hqty & Hbase
              & Hmethod & _ & _).
        injection Hreq as <- <- <-.
        apply (record_ok_mono s); [exact Hmono | ].
        unfold record_ok, recorded.
        cbn [transaction_id txn_user_id liters payment_method fee_charged
             amount discount_applied].
        split; [unfold g_transaction_count; lia | ].
        split.
        { destruct Hwf as [Hids _].
          destruct (find_user_from_sound _ _ _ _ _ Hfind) as (_ & Hn & Hu).
          rewrite Nat.sub_0_r in Hn. pose proof (Hids _ _ Hn) as Hp.
          assert (p < List.length (users s))%nat
            by (apply nth_error_Some; rewrite Hn; discriminate).
          unfold user_count. lia. }
        split; [exact Hqty | ].
        rewrite <- Hbase.
        destruct Hmethod as [(_ & Hm & Hf & Ha) | (_ & Hm & Ha)];
          [left | right]; auto.
Qed.

Lemma initial_ledger_wf : ledger_wf initial_state.
Proof.
  split; [unfold g_transaction_count, MAX_TRANSACTIONS; cbn; lia | ].
  intros [ | i] t; discriminate.
Qed.

Lemma reachable_wf (s : State) : reachable s -> users_wf s /\ ledger_wf s.
Proof.
  revert s. apply reachable_ind.
  - split; [exact initial_users_wf | exact initial_ledger_wf].
  - intros now req s [Hu Hl].
    split; [apply serve_users_wf | apply serve_ledger_wf]; assumption.
Qed.

(** X13. In every state the program can reach the ledger holds at most
    MAX_TRANSACTIONS records and every record is sound: its number is its
    position plus one, it names a registered user, its quantity was not
    refused, its method is Cash (then with fee 0 and amount = liters x 2.00
    - discount) or Digital (then with amount = liters x 2.00 - discount +
    fee). *)
Theorem reachable_ledger_sound (s : State) :
  reachable s ->
  g_transaction_count s <= MAX_TRANSACTIONS /\
  forall (i : nat) (t : Transaction),
    nth_error (transactions s) i = Some t -> record_ok s i t.
Proof.
  intros Hr. exact (proj2 (reachable_wf s Hr)).
Qed.

Lemma reachable_ledger_sound_witness :
  reachable Session2.mixed /\
  exists t : Transaction,
    nth_error (transactions Session2.mixed) 1 = Some t /\
    record_ok Session2.mixed 1 t /\ payment_method t = "Digital"%string.
Proof.
  assert (Hr : reachable Session2.mixed).
  { exists Session2.mixed_requests. reflexivity. }
  split; [exact Hr | ].
  eexists. split; [reflexivity | ].
  split; [ | reflexivity].
  apply (proj2 (reachable_ledger_sound Session2.mixed Hr)). reflexivity.
Defined.

(** ** Counters and the ledger *)

Lemma ledger_methods_total (ts : list Transaction) :
  (forall t, In t ts ->
     payment_method t = "Cash"%string \/ payment_method t = "Digital"%string) ->
  ledger_count "Cash" ts + ledger_count "Digital" ts
  = Z.of_nat (List.length ts).
Proof.
  unfold ledger_count. induction ts as [ | t rest IH]; intros H.
  - reflexivity.
  - specialize (IH (fun t' Hin => H t' (or_intror Hin))).
    cbn [filter List.length].
    destruct (H t (or_introl eq_refl)) as [-> | ->];
      simpl (String.eqb _ _); cbn [List.length]; lia.
Qed.

(** X14. As long as at most MAX_TRANSACTIONS purchases complete, the
    number of ledger records equals the number of completed purchases, and
    the cash and digital counters add up to it. *)
Theorem payment_counters_partition (reqs : list (Z * Request)) :
  purchases (fst (run reqs initial_state)) <= MAX_TRANSACTIONS ->
  let s := snd (run reqs initial_state) in
  g_transaction_count s = purchases (fst (run reqs initial_state)) /\
  cash_transactions (stats s) + digital_transactions (stats s)
  = g_transaction_count s.
Proof.
  intros Hroom s.
  destruct (run_within_capacity analytics_consistent) with
    (reqs := reqs) (s := initial_state) as [Hinv Hcnt].
  - intros now req s0 o s1 Hserve Hc Hr.
    exact (proj1 (serve_consistent _ _ _ _ _ Hserve Hc Hr)).
  - exact initial_state_consistent.
  - exact Hroom.
  - fold s in Hinv, Hcnt. split; [exact Hcnt | ].
    destruct Hinv as (_ & _ & _ & Hcash & Hdig). rewrite Hcash, Hdig.
    apply ledger_methods_total. intros t Hin.
    apply In_nth_error in Hin. destruct Hin as [i Hi].
    assert (Hr : reachable s) by (exists reqs; reflexivity).
    destruct (proj2 (proj2 (reachable_wf s Hr)) i t Hi)
      as (_ & _ & _ & [(Hm & _) | (Hm & _)]); auto.
Qed.

Lemma payment_counters_partition_witness :
  purchases (fst (run Session2.mixed_requests initial_state))
  <= MAX_TRANSACTIONS /\
  g_transaction_count Session2.mixed = 2 /\
  cash_transactions (stats Session2.mixed)
  + digital_transactions (stats Session2.mixed) = 2.
Proof.
  assert (Hroom : purchases (fst (run Session2.mixed_requests initial_state))
                  <= MAX_TRANSACTIONS) by (vm_compute; discriminate).
  split; [exact Hroom | ].
  destruct (payment_counters_partition Session2.mixed_requests Hroom)
    as [Hcnt Hsum].
  split; [exact Hcnt | exact (eq_trans Hsum Hcnt)].
Defined.

Lemma stats_after_purchase_counters (lit : float) (r : Receipt)
    (a : Analytics) :
  bulk_purchases (stats_after_purchase lit r a)
  = (if (MIN_BULK_LITERS <=? lit)%float then int_add (bulk_purchases a) 1
     else bulk_purchases a) /\
  pass_holders (stats_after_purchase lit r a) = pass_holders a.
Proof.
  unfold stats_after_purchase.
  destruct (String.eqb (r_payment_method r) "Cash"),
           (MIN_BULK_LITERS <=? lit)%float; split; reflexivity.
Qed.

Lemma ledger_bulk_count_app (ts : list Transaction) (t : Transaction) :
  ledger_bulk_count (ts ++ [t])
  = ledger_bulk_count ts
    + (if (MIN_BULK_LITERS <=? liters t)%float then 1 else 0).
Proof.
  unfold ledger_bulk_count. rewrite filter_app, length_app. cbn [filter].
  destruct (MIN_BULK_LITERS <=? liters t)%float; cbn [List.length]; lia.
Qed.

Lemma ledger_bulk_count_bound (ts : list Transaction) :
  0 <= ledger_bulk_count ts <= Z.of_nat (List.length ts).
Proof.
  unfold ledger_bulk_count.
  pose proof (filter_length_le
                (fun t => (MIN_BULK_LITERS <=? liters t)%float) ts). lia.
Qed.

(** X15. As long as at most MAX_TRANSACTIONS purchases complete, the
    bulk counter equals the number of ledger records of 10 liters or
    more. *)
Theorem bulk_counter_matches_ledger (reqs : list (Z * Request)) :
  purchases (fst (run reqs initial_state)) <= MAX_TRANSACTIONS ->
  let s := snd (run reqs initial_state) in
  bulk_purchases (stats s) = ledger_bulk_count (transactions s).
Proof.
  intros Hroom s.
  refine (proj1 (run_within_capacity
                   (fun s => bulk_purchases (stats s)
                             = ledger_bulk_count (transactions s))
                   _ reqs initial_state eq_refl Hroom)).
  clear. intros now req s o s' Hserve Hinv Hroom.
  destruct (is_purchased o) eqn:Hp.
  - destruct o; try discriminate.
    destruct (serve_purchased _ _ _ _ _ Hserve)
      as (uid & lit & choice & p & u & _ & _ & _ & _ & _ & Hst & Ht).
    unfold g_transaction_count, MAX_TRANSACTIONS in Hroom.
    replace (MAX_TRANSACTIONS <=? g_transaction_count s) with false in Ht
      by (symmetry; apply Z.leb_gt;
          unfold g_transaction_count, MAX_TRANSACTIONS; lia).
    rewrite Hst, Ht, ledger_bulk_count_app.
    rewrite (proj1 (stats_after_purchase_counters lit r (stats s))), Hinv.
    unfold recorded. cbn [liters].
    destruct (MIN_BULK_LITERS <=? lit)%float; [ | lia].
    unfold int_add. apply int_wrap_in_range.
    pose proof (ledger_bulk_count_bound (transactions s)).
    unfold in_int_range, INT_MIN, INT_MAX. lia.
  - destruct (serve_not_purchased _ _ _ _ _ Hserve Hp) as [Ht Hst].
    rewrite Hst, Ht.
    destruct (is_pass_purchased o); [exact Hinv | exact Hinv].
Qed.

Lemma bulk_counter_matches_ledger_witness :
  purchases (fst (run Session2.mixed_requests initial_state))
  <= MAX_TRANSACTIONS /\
  bulk_purchases (stats Session2.mixed) = 1 /\
  ledger_bulk_count (transactions Session2.mixed) = 1.
Proof.
  assert (Hroom : purchases (fst (run Session2.mixed_requests initial_state))
                  <= MAX_TRANSACTIONS) by (vm_compute; discriminate).
  split; [exact Hroom | ].
  pose proof (bulk_counter_matches_ledger Session2.mixed_requests Hroom) as H.
  cbv zeta in H. split; [exact (eq_trans H eq_refl) | reflexivity].
Defined.

(** ** Passes sold *)

Lemma int_wrap_succ (x : Z) : int_add (int_wrap x) 1 = int_wrap (x + 1).
Proof.
  unfold int_add, int_wrap.
  replace ((x + 2 ^ 31) mod 2 ^ 32 - 2 ^ 31 + 1 + 2 ^ 31)
    with ((x + 2 ^ 31) mod 2 ^ 32 + 1) by lia.
  rewrite Z.add_mod_idemp_l by lia. f_equal. f_equal. lia.
Qed.

Lemma passes_sold_cons (o : Outcome) (os : list Outcome) :
  passes_sold (o :: os)
  = (if is_pass_purchased o then 1 else 0) + passes_sold os.
Proof.
  unfold passes_sold. cbn [filter].
  destruct (is_pass_purchased o); cbn [List.length]; lia.
Qed.

Lemma run_pass_holders (reqs : list (Z * Request)) :
  forall (s : State) (x : Z),
    pass_holders (stats s) = int_wrap x ->
    pass_holders (stats (snd (run reqs s)))
    = int_wrap (x + passes_sold (fst (run reqs s))).
Proof.
  induction reqs as [ | [now req] rest IH]; intros s x Hx.
  - cbn [run fst snd]. unfold passes_sold. cbn. rewrite Z.add_0_r. exact Hx.
  - cbn [run]. destruct (serve now req s) as [o s1] eqn:Hserve.
    specialize (IH s1). destruct (run rest s1) as [os s2].
    cbn [fst snd] in *. rewrite passes_sold_cons.
    destruct (is_purchased o) eqn:Hp.
    + destruct o; try discriminate. cbn [is_pass_purchased].
      destruct (serve_purchased _ _ _ _ _ Hserve)
        as (uid & lit & choice & p & u & _ & _ & _ & _ & _ & Hst & _).
      apply IH. rewrite Hst.
      rewrite (proj2 (stats_after_purchase_counters lit r (stats s))).
      exact Hx.
    + destruct (serve_not_purchased _ _ _ _ _ Hserve Hp) as [_ Hst].
      destruct (is_pass_purchased o).
      * rewrite Z.add_assoc. apply IH. rewrite Hst.
        cbn [pass_holders incr_pass_holders]. rewrite Hx.
        apply int_wrap_succ.
      * apply IH. rewrite Hst. exact Hx.
Qed.

(** X16. The counter named [pass_holders] is the number of passes sold
    during the session (as a 32-bit integer), not the number of users
    holding a pass: every successful pass purchase adds one, also when the
    buyer already holds a pass, and nothing ever lowers it, not even the
    expiry of a pass. *)
Theorem pass_holders_counts_sales (reqs : list (Z * Request)) :
  let result := run reqs initial_state in
  pass_holders (stats (snd result)) = int_wrap (passes_sold (fst result)) /\
  (passes_sold (fst result) <= INT_MAX ->
   pass_holders (stats (snd result)) = passes_sold (fst result)).
Proof.
  intros result.
  assert (H : pass_holders (stats (snd result))
              = int_wrap (0 + passes_sold (fst result))).
  { apply run_pass_holders. reflexivity. }
  rewrite Z.add_0_l in H. split; [exact H | ].
  intros Hle. rewrite H. apply int_wrap_in_range.
  unfold in_int_range, INT_MIN. unfold passes_sold in *. lia.
Qed.
